(** * Response cache and speech-synthesis hand-off of the AI learning assistant

    A shallow embedding of the Lambda layer modules
    [hash_utils.py], [polly_utils.py], [s3_utils.py] and [s3_cache_utils.py],
    with the properties of the deterministic identifier, the response cache,
    the synthesis decision engine and the text chunking helper.

    Conventions of the embedding:
    - a Python [str] is a [string] whose characters are the code points
      U+0000..U+00FF, one [ascii] per code point, so [len] counts characters;
    - a Python [bytes] is a [list byte];
    - a Python [int] is a [Z];
    - a Python [dict] with string keys is a [gmap string _];
    - code that raises runs in the monad [M] below: a state monad over the
      [world] (bucket contents, availability of the object store, log of the
      calls made to the external services) with exceptions. *)

From Stdlib Require Import ZArith NArith List Lia Bool.
From Stdlib.Strings Require Import String Ascii Byte.
From stdpp Require Import gmap strings list.
Import ListNotations.

Local Open Scope Z_scope.

(** ** Python strings *)

Module Py.

(** [len(s)] *)
Definition len (s : string) : Z := Z.of_nat (String.length s).

Fixpoint str_take (n : nat) (s : string) : string :=
  match n, s with
  | O, _ => EmptyString
  | S _, EmptyString => EmptyString
  | S n', String c s' => String c (str_take n' s')
  end.

Fixpoint str_drop (n : nat) (s : string) : string :=
  match n, s with
  | O, _ => s
  | S _, EmptyString => EmptyString
  | S n', String _ s' => str_drop n' s'
  end.

(** The position a slice bound [i] denotes in a sequence of length [n]:
    a negative bound counts from the end, and every bound is clamped to
    [0..n]. *)
Definition slice_bound (n i : Z) : nat :=
  Z.to_nat (if i <? 0 then Z.max 0 (n + i) else Z.min i n).

(** [s[:i]] *)
Definition slice_to (s : string) (i : Z) : string :=
  str_take (slice_bound (len s) i) s.

(** [s[i:]] *)
Definition slice_from (s : string) (i : Z) : string :=
  str_drop (slice_bound (len s) i) s.

(** [s.rfind(c)] for a one-character needle: the highest index of [c],
    or [-1]. *)
Fixpoint rfind (s : string) (c : ascii) : Z :=
  match s with
  | EmptyString => -1
  | String a s' =>
      let r := rfind s' c in
      if 0 <=? r then r + 1
      else if Ascii.eqb a c then 0 else -1
  end.

(** [s.find(sub)]: the lowest index where [sub] starts, or [-1]. *)
Fixpoint find (s sub : string) : Z :=
  if String.prefix sub s then 0
  else match s with
       | EmptyString => -1
       | String _ s' =>
           let r := find s' sub in
           if 0 <=? r then r + 1 else -1
       end.

(** [str.isspace] on the code points below 256. *)
Definition isspace (c : ascii) : bool :=
  let n := N_of_ascii c in
  ((9 <=? n) && (n <=? 13) || (28 <=? n) && (n <=? 32)
   || (n =? 133) || (n =? 160))%N.

Fixpoint lstrip_by (p : ascii -> bool) (s : string) : string :=
  match s with
  | EmptyString => EmptyString
  | String a s' => if p a then lstrip_by p s' else s
  end.

Fixpoint rstrip_by (p : ascii -> bool) (s : string) : string :=
  match s with
  | EmptyString => EmptyString
  | String a s' =>
      match rstrip_by p s' with
      | EmptyString => if p a then EmptyString else String a EmptyString
      | r => String a r
      end
  end.

(** [s.strip()] *)
Definition strip (s : string) : string :=
  rstrip_by isspace (lstrip_by isspace s).

(** [s.rstrip(c)] for a one-character set. *)
Definition rstrip (s : string) (c : ascii) : string :=
  rstrip_by (Ascii.eqb c) s.

(** [''.join(l)] *)
Fixpoint join (l : list string) : string :=
  match l with
  | [] => EmptyString
  | s :: l' => String.append s (join l')
  end.

(** [''.join(c for c in s if p c)] *)
Fixpoint keep (p : ascii -> bool) (s : string) : string :=
  match s with
  | EmptyString => EmptyString
  | String a s' => if p a then String a (keep p s') else keep p s'
  end.

(** [c in s] for a character [c]. *)
Fixpoint contains (s : string) (c : ascii) : bool :=
  match s with
  | EmptyString => false
  | String a s' => Ascii.eqb a c || contains s' c
  end.

(** [c * n] for a character [c] *)
Definition replicate (n : N) (c : ascii) : string :=
  N.iter n (String c) EmptyString.

(** [all(p(c) for c in s)] *)
Fixpoint all (p : ascii -> bool) (s : string) : bool :=
  match s with
  | EmptyString => true
  | String a s' => p a && all p s'
  end.

End Py.

(** ** polly_utils.py: pure helpers *)

Definition SYNTHESIZE_MAX_LENGTH : Z := 3000.
Definition ASYNC_SYNTHESIZE_MAX_LENGTH : Z := 180000.

(** [split_text_into_chunks]: the [while] loop, one iteration per unit of
    [fuel]; [None] when the fuel runs out before the loop condition fails. *)
Fixpoint split_loop (fuel : nat) (text : string) (max_length : Z)
    (chunks : list string) : option (list string) :=
  match fuel with
  | O => None
  | S fuel' =>
      if max_length <? Py.len text then
        let split_index := Py.rfind (Py.slice_to text max_length) "." + 1 in
        let split_index := if split_index =? 0 then max_length else split_index in
        split_loop fuel' (Py.slice_from text split_index) max_length
          (chunks ++ [Py.strip (Py.slice_to text split_index)])
      else Some (chunks ++ [Py.strip text])
  end.

Definition split_text_into_chunks (fuel : nat) (text : string) (max_length : Z)
    : option (list string) :=
  split_loop fuel text max_length [].

Definition get_synthesis_file_key (file_key task_id output_format : string) : string :=
  String.append file_key (String.append task_id (String.append "." output_format)).

(** ** hash_utils.py *)

Definition ALLOWED_CHARS_HASH : string :=
  "abcdefghijklmnopqrstuvwxyzABCDEFGHIJKLMNOPQRSTUVWXYZ0123456789._-".

Module Codec.

Definition byte_of_N (n : N) : byte := byte_of_ascii (ascii_of_N n).

(** [str.encode()]: UTF-8; a code point below 128 is one byte, a code
    point in 128..255 is two. *)
Definition utf8_char (c : ascii) : list byte :=
  let n := N_of_ascii c in
  if (n <? 128)%N then [byte_of_ascii c]
  else [byte_of_N (192 + n / 64); byte_of_N (128 + n mod 64)].

Fixpoint encode (s : string) : list byte :=
  match s with
  | EmptyString => []
  | String c s' => utf8_char c ++ encode s'
  end.

(** [bytes.decode('utf-8')] on ASCII bytes, the only bytes a base64
    encoding is made of: each byte is its own code point. *)
Fixpoint decode (bs : list byte) : string :=
  match bs with
  | [] => EmptyString
  | b :: bs' => String (ascii_of_byte b) (decode bs')
  end.

Definition URLSAFE_ALPHABET : list byte :=
  list_byte_of_string
    "ABCDEFGHIJKLMNOPQRSTUVWXYZabcdefghijklmnopqrstuvwxyz0123456789-_".

Definition b64_digit (n : N) : byte :=
  nth (N.to_nat n) URLSAFE_ALPHABET "="%byte.

(** [base64.urlsafe_b64encode]: three bytes give four digits; a last
    group of one or two bytes is padded with [=]. *)
Fixpoint urlsafe_b64encode (bs : list byte) : list byte :=
  match bs with
  | [] => []
  | [a] =>
      let x := Byte.to_N a in
      [b64_digit (x / 4); b64_digit (x mod 4 * 16); "="%byte; "="%byte]
  | [a; b] =>
      let x := Byte.to_N a in
      let y := Byte.to_N b in
      [b64_digit (x / 4); b64_digit (x mod 4 * 16 + y / 16);
       b64_digit (y mod 16 * 4); "="%byte]
  | a :: b :: c :: rest =>
      let x := Byte.to_N a in
      let y := Byte.to_N b in
      let z := Byte.to_N c in
      b64_digit (x / 4) :: b64_digit (x mod 4 * 16 + y / 16)
      :: b64_digit (y mod 16 * 4 + z / 64) :: b64_digit (z mod 64)
      :: urlsafe_b64encode rest
  end%N.

End Codec.

Section Hash.

(** [hashlib.sha256(data).digest()], a function of the Python standard
    library, is a parameter of the embedding. *)
Variable sha256 : list byte -> list byte.

Definition deterministic_hash (file_key : string) : string :=
  let result := file_key in
  let videos_index := Py.find file_key "videos" in
  let result :=
    if negb (videos_index =? -1) then Py.slice_from file_key videos_index
    else result in
  let hash_object := sha256 (Codec.encode result) in
  let hash_str := Codec.decode (Codec.urlsafe_b64encode hash_object) in
  let hash_str := Py.rstrip hash_str "=" in
  let allowed_chars := Py.contains ALLOWED_CHARS_HASH in
  let filtered_hash := Py.keep allowed_chars hash_str in
  filtered_hash.

End Hash.

(** The character class [[A-Za-z0-9._-]]. *)
Definition key_safe (c : ascii) : bool :=
  let n := N_of_ascii c in
  ((65 <=? n) && (n <=? 90) || (97 <=? n) && (n <=? 122)
   || (48 <=? n) && (n <=? 57)
   || (n =? 46) || (n =? 95) || (n =? 45))%N.

(** ** Exceptions, the world and the monad of effects *)

Inductive exn : Type :=
| ValueError (msg : string)
| KeyError (key : string)
| IndexError
| TypeError
| JSONDecodeError
| ClientError (code : string)
| EndpointConnectionError.

Inductive outcome (A : Type) : Type :=
| Ok (a : A)
| Raise (e : exn).
Arguments Ok {A} a.
Arguments Raise {A} e.

(** Polly's data: a voice of [describe_voices], and the requests of the two
    synthesis operations with the keyword arguments the code passes. *)
Record voice : Type := {
  Id : string;
  LanguageCode : string;
  SupportedEngines : list string
}.

Record synthesize_request : Type := {
  sr_Text : string;
  sr_OutputFormat : string;
  sr_LanguageCode : string;
  sr_VoiceId : string;
  sr_Engine : string
}.

Record task_request : Type := {
  tr_Text : string;
  tr_OutputFormat : string;
  tr_LanguageCode : string;
  tr_VoiceId : string;
  tr_Engine : string;
  tr_OutputS3BucketName : string;
  tr_OutputS3KeyPrefix : string
}.

(** The speech service as the code sees it: what each operation answers.
    A response is the entry the code reads from the returned dict, [None]
    when the dict has no such entry. An [AudioStream] is the sequence of
    chunks its successive [read] calls return. *)
Record polly_client : Type := {
  describe_voices : option string -> outcome (option (list voice));
  polly_synthesize_speech :
    synthesize_request -> outcome (option (list (list byte)));
  start_speech_synthesis_task : task_request -> outcome string
}.

(** Every call that leaves the process is logged, in the order made. *)
Inductive event : Type :=
| S3HeadObject (bucket key : string)
| S3GetObject (bucket key : string)
| S3PutObject (bucket key : string) (body : list byte)
| Generate
| PollyDescribeVoices (language_code : option string)
| PollySynthesizeSpeech (request : synthesize_request)
| PollyStartSpeechSynthesisTask (request : task_request).

(** [s3_objects]: the objects of every bucket, by bucket and key.
    [s3_faults]: whether the object store is unreachable for the next
    request, the one after, and so on ([true]: unreachable); past the end
    of the list it is reachable.
    [calls]: the log. *)
Record world : Type := {
  s3_objects : gmap (string * string) (list byte);
  s3_faults : list bool;
  calls : list event
}.

Definition M (A : Type) : Type := world -> outcome A * world.

Definition ret {A} (a : A) : M A := fun w => (Ok a, w).

Definition bind {A B} (m : M A) (k : A -> M B) : M B :=
  fun w =>
    match m w with
    | (Ok a, w') => k a w'
    | (Raise e, w') => (Raise e, w')
    end.

Definition raise {A} (e : exn) : M A := fun w => (Raise e, w).

(** [try: m  except Exception as e: h e] *)
Definition try_except {A} (m : M A) (h : exn -> M A) : M A :=
  fun w =>
    match m w with
    | (Ok a, w') => (Ok a, w')
    | (Raise e, w') => h e w'
    end.

(** The handler [logger.debug(...); raise e]. *)
Definition log_and_reraise {A} (e : exn) : M A := raise e.

Definition lift {A} (o : outcome A) : M A := fun w => (o, w).

(** The world after the call [e] is logged. *)
Definition logged (e : event) (w : world) : world :=
  {| s3_objects := s3_objects w; s3_faults := s3_faults w;
     calls := calls w ++ [e] |}.

(** The world after the request [e] is sent to the object store: it is
    logged, and the store's availability moves on by one request. *)
Definition requested (e : event) (w : world) : world :=
  {| s3_objects := s3_objects w; s3_faults := tail (s3_faults w);
     calls := calls w ++ [e] |}.

(** The world after [body] is stored at [key] of [bucket]. *)
Definition stored (bucket key : string) (body : list byte) (w : world) : world :=
  {| s3_objects := <[(bucket, key) := body]> (s3_objects w);
     s3_faults := s3_faults w; calls := calls w |}.

Definition emit (e : event) : M unit := fun w => (Ok tt, logged e w).

Declare Scope eff_scope.
Delimit Scope eff_scope with eff.
Notation "x <- m ;; k" := (bind m (fun x => k))
  (at level 100, m at next level, right associativity) : eff_scope.
Notation "m ;;; k" := (bind m (fun _ => k))
  (at level 100, right associativity) : eff_scope.
Local Open Scope eff_scope.

(** ** The boto3 S3 client *)

(** One request to the object store: it is logged, and fails when the
    store is unreachable. *)
Definition s3_request (e : event) : M unit :=
  fun w =>
    match s3_faults w with
    | true :: _ => (Raise EndpointConnectionError, requested e w)
    | _ => (Ok tt, requested e w)
    end.

Definition read_object (bucket key : string) : M (option (list byte)) :=
  fun w => (Ok (s3_objects w !! (bucket, key)), w).

Definition head_object (bucket key : string) : M unit :=
  s3_request (S3HeadObject bucket key) ;;;
  o <- read_object bucket key ;;
  match o with
  | Some _ => ret tt
  | None => raise (ClientError "404")
  end.

Definition get_object (bucket key : string) : M (list byte) :=
  s3_request (S3GetObject bucket key) ;;;
  o <- read_object bucket key ;;
  match o with
  | Some body => ret body
  | None => raise (ClientError "NoSuchKey")
  end.

Definition put_object (bucket key : string) (body : list byte) : M unit :=
  s3_request (S3PutObject bucket key body) ;;;
  fun w => (Ok tt, stored bucket key body w).

Section Layer.

(** The values the generation functions return and the cache stores,
    with the JSON codec of the Python standard library:
    [json_dumps v] is [json.dumps(v, indent=2).encode('utf-8')] and
    [json_loads b] is [json.loads(b.decode('utf-8'))]. *)
Variable pyobj : Type.
Variable json_dumps : pyobj -> outcome (list byte).
Variable json_loads : list byte -> outcome pyobj.

(** The module-level client [polly]. *)
Variable polly : polly_client.

(** *** s3_utils.py *)

Definition get_json_from_s3 (s3_bucket file_key : string) : M pyobj :=
  try_except
    (head_object s3_bucket file_key ;;;
     response <- get_object s3_bucket file_key ;;
     json_content <- lift (json_loads response) ;;
     ret json_content)
    log_and_reraise.

Definition write_json_to_s3 (bucket_name file_key : string)
    (json_data_to_write : pyobj) : M string :=
  json_string <- lift (json_dumps json_data_to_write) ;;
  try_except
    (put_object bucket_name file_key json_string ;;;
     ret file_key)
    log_and_reraise.

Definition check_s3_file_exists (bucket_name file_key : string) : M bool :=
  try_except
    (head_object bucket_name file_key ;;;
     ret true)
    (fun _ => ret false).

(** *** polly_utils.py *)

Definition polly_request {A} (e : event) (answer : outcome A) : M A :=
  emit e ;;; lift answer.

Definition get_default_voice_for_language (polly : polly_client)
    (language_code : string) : M voice :=
  try_except
    (response <- polly_request (PollyDescribeVoices (Some language_code))
                   (describe_voices polly (Some language_code)) ;;
     match response with
     | Some (v :: _) => ret v
     | _ => raise (ValueError
              (String.append "No voices available for language: " language_code))
     end)
    log_and_reraise.

(** The loop of [process_audio_stream_and_upload_to_s3]: [reads] are the
    chunks that [audio_stream.read(chunk_size)] returns call after call;
    a stream that is exhausted returns the empty chunk. *)
Fixpoint accumulate (reads : list (list byte)) (full_data : list byte)
    : list byte :=
  match reads with
  | [] => full_data
  | [] :: _ => full_data
  | chunk :: reads' => accumulate reads' (full_data ++ chunk)
  end.

Definition process_audio_stream_and_upload_to_s3 (bucket file_key : string)
    (audio_stream : list (list byte)) : M unit :=
  let full_data := accumulate audio_stream [] in
  put_object bucket file_key full_data.

Definition synthesize_speech (bucket_name file_key text output_format
    language_code : string) (async_processing : bool)
    : M (gmap string string) :=
  response <- polly_request (PollyDescribeVoices None)
                (describe_voices polly None) ;;
  polly_languages <-
    match response with
    | Some voices => ret voices
    | None => raise (KeyError "Voices")
    end ;;
  let polly_supported_languages : gset string :=
    list_to_set (LanguageCode <$> polly_languages) in
  if bool_decide (language_code ∈ polly_supported_languages) then
    try_except
      (voice <- get_default_voice_for_language polly language_code ;;
       let text_length := Py.len text in
       if (text_length <? SYNTHESIZE_MAX_LENGTH) && negb async_processing then
         engine <- match SupportedEngines voice with
                   | e :: _ => ret e
                   | [] => raise IndexError
                   end ;;
         let request :=
           {| sr_Text := text; sr_OutputFormat := output_format;
              sr_LanguageCode := language_code; sr_VoiceId := Id voice;
              sr_Engine := engine |} in
         response <- polly_request (PollySynthesizeSpeech request)
                       (polly_synthesize_speech polly request) ;;
         match response with
         | Some audio_stream =>
             process_audio_stream_and_upload_to_s3 bucket_name file_key
               audio_stream ;;;
             ret ({[ "audio_key" := file_key ]} : gmap string string)
         | None =>
             raise (ValueError "Error: Response does not contain audio data.")
         end
       else if text_length <? ASYNC_SYNTHESIZE_MAX_LENGTH then
         engine <- match SupportedEngines voice with
                   | e :: _ => ret e
                   | [] => raise IndexError
                   end ;;
         let request :=
           {| tr_Text := text; tr_OutputFormat := output_format;
              tr_LanguageCode := language_code; tr_VoiceId := Id voice;
              tr_Engine := engine; tr_OutputS3BucketName := bucket_name;
              tr_OutputS3KeyPrefix := file_key |} in
         task_id <- polly_request (PollyStartSpeechSynthesisTask request)
                      (start_speech_synthesis_task polly request) ;;
         ret ({[ "task_id" := task_id ]} : gmap string string)
       else
         raise (ValueError "Error: Text is too long for polly synthesis task."))
      log_and_reraise
  else
    raise (ValueError
      (String.append "Language Code "
         (String.append language_code " not supported by Amazon Polly."))).

(** *** s3_cache_utils.py *)

(** The call of [call_bedrock_function] on the positional and keyword
    arguments of the caller: the generation function answers with a value
    or raises, and the call is logged. *)
Definition call_generation {A} (call_bedrock_function : A -> outcome pyobj)
    (args : A) : M pyobj :=
  emit Generate ;;; lift (call_bedrock_function args).

Definition get_or_generate_bedrock_response {A}
    (bucket_name file_key : string)
    (call_bedrock_function : A -> outcome pyobj) (args : A)
    : M (pyobj * bool) :=
  try_except
    (file_exists <- check_s3_file_exists bucket_name file_key ;;
     bedrock_response <-
       (if file_exists : bool then
          get_json_from_s3 bucket_name file_key
        else
          bedrock_response <- call_generation call_bedrock_function args ;;
          write_json_to_s3 bucket_name file_key bedrock_response ;;;
          ret bedrock_response) ;;
     ret (bedrock_response, file_exists))
    log_and_reraise.

Definition get_or_synthesize_speech (bucket_name file_key text_to_synthesize
    output_format language_code : string) (async_processing : bool)
    : M (gmap string string) :=
  try_except
    (file_exists <- check_s3_file_exists bucket_name file_key ;;
     synthesis_result <-
       (if file_exists : bool then
          ret ({[ "audio_key" := file_key ]} : gmap string string)
        else
          synthesize_speech bucket_name file_key text_to_synthesize
            output_format language_code async_processing) ;;
     ret synthesis_result)
    log_and_reraise.

End Layer.

(** ** Observations on the log *)

Definition is_generation (e : event) : bool :=
  match e with Generate => true | _ => false end.

Definition is_write (e : event) : bool :=
  match e with S3PutObject _ _ _ => true | _ => false end.

Definition is_polly (e : event) : bool :=
  match e with
  | PollyDescribeVoices _ | PollySynthesizeSpeech _
  | PollyStartSpeechSynthesisTask _ => true
  | _ => false
  end.

Definition is_synchronous (e : event) : bool :=
  match e with PollySynthesizeSpeech _ => true | _ => false end.

Definition is_asynchronous (e : event) : bool :=
  match e with PollyStartSpeechSynthesisTask _ => true | _ => false end.

Definition is_synthesis (e : event) : bool :=
  match e with
  | PollySynthesizeSpeech _ | PollyStartSpeechSynthesisTask _ => true
  | _ => false
  end.

(** How many of the events of a log satisfy [p]. *)
Definition count (p : event -> bool) (log : list event) : nat :=
  length (filter (fun e => p e = true) log).
Arguments count : simpl never.

(** The object store is reachable for the next [n] requests. *)
Fixpoint reachable (n : nat) (faults : list bool) : bool :=
  match n, faults with
  | O, _ => true
  | S _, [] => true
  | S n', f :: faults' => negb f && reachable n' faults'
  end.

(** The requests the two branches of [synthesize_speech] send. *)
Definition synchronous_request (text output_format language_code : string)
    (voice : voice) (engine : string) : synthesize_request :=
  {| sr_Text := text; sr_OutputFormat := output_format;
     sr_LanguageCode := language_code; sr_VoiceId := Id voice;
     sr_Engine := engine |}.

Definition asynchronous_request (bucket_name file_key text output_format
    language_code : string) (voice : voice) (engine : string) : task_request :=
  {| tr_Text := text; tr_OutputFormat := output_format;
     tr_LanguageCode := language_code; tr_VoiceId := Id voice;
     tr_Engine := engine; tr_OutputS3BucketName := bucket_name;
     tr_OutputS3KeyPrefix := file_key |}.

(** The world once the languages and the voice have been looked up. *)
Definition looked_up (language_code : string) (w : world) : world :=
  logged (PollyDescribeVoices (Some language_code))
    (logged (PollyDescribeVoices None) w).

(** ** Sample inputs *)

Module Sample.

Definition joanna : voice :=
  {| Id := "Joanna"; LanguageCode := "en-US";
     SupportedEngines := ["neural"; "standard"] |}.

Definition lucia : voice :=
  {| Id := "Lucia"; LanguageCode := "es-ES"; SupportedEngines := ["neural"] |}.

(** A speech service with two voices that answers every request. *)
Definition speech : polly_client :=
  {| describe_voices :=
       fun language_code =>
         match language_code with
         | None => Ok (Some [joanna; lucia])
         | Some l =>
             Ok (Some (filter (fun v => LanguageCode v = l) [joanna; lucia]))
         end;
     polly_synthesize_speech :=
       fun _ => Ok (Some [["073"; "068"]%byte; ["051"]%byte]);
     start_speech_synthesis_task := fun _ => Ok "task-1" |}.

(** A JSON codec for values that are strings (quotes left out). *)
Definition dumps (v : string) : outcome (list byte) :=
  Ok (list_byte_of_string v).

Definition loads (body : list byte) : outcome string :=
  Ok (string_of_list_byte body).

Definition summary_key : string := "u1/summaries/jobA-modelX-en.json".
Definition audio_key : string := "u1/audios/jobA-modelX-en.mp3".

(** An empty, reachable bucket, and one that holds a summary and its audio. *)
Definition empty_world : world :=
  {| s3_objects := ∅; s3_faults := []; calls := [] |}.

Definition warm_world : world :=
  {| s3_objects :=
       {[ ("media", summary_key) := list_byte_of_string "a summary";
          ("media", audio_key) := ["073"; "068"; "051"]%byte ]};
     s3_faults := []; calls := [] |}.

End Sample.

(** ** More of the layer: keys, URLs, moving objects, translations *)

Module Str.

(** [s.find(sub, start)]: the lowest index at or after [start] where [sub]
    starts, or [-1]; a [start] beyond the end finds nothing. *)
Definition find_from (s sub : string) (start : Z) : Z :=
  if Py.len s <? start then -1
  else
    let n := Py.slice_bound (Py.len s) start in
    let r := Py.find (Py.str_drop n s) sub in
    if 0 <=? r then r + Z.of_nat n else -1.

(** [s.split(c, 1)] for a one-character separator: the text before the
    first separator and the text after it, or [s] alone. *)
Definition split_once (s : string) (c : ascii) : list string :=
  let i := Py.find s (String c EmptyString) in
  if 0 <=? i then [Py.slice_to s i; Py.slice_from s (i + 1)] else [s].

(** Truth value of an optional string argument: [None] and the empty
    string are false. *)
Definition truthy (o : option string) : bool :=
  match o with
  | Some (String _ _) => true
  | _ => false
  end.

(** An optional string argument inside an f-string. *)
Definition render (o : option string) : string :=
  match o with
  | Some s => s
  | None => "None"
  end.

End Str.

(** *** polly_utils.py: [extract_file_key_from_url] *)

Definition extract_file_key_from_url (s3_url : string) : outcome string :=
  let path_start := Str.find_from s3_url "/" (Py.find s3_url "//" + 2) in
  if path_start =? -1 then
    Raise (ValueError "Invalid S3 URL: No path found in the URL.")
  else
    let parts := Str.split_once (Py.slice_from s3_url (path_start + 1)) "/" in
    if (length parts <? 2)%nat then
      Raise (ValueError "Invalid S3 URL: Could not find the file key.")
    else
      match parts with
      | _ :: file_key :: _ => Ok file_key
      | _ => Raise IndexError
      end.

(** *** s3_utils.py: [get_file_key] *)

(** [ts] is the text of [datetime.timestamp(datetime.now())], read from the
    clock when the key is built; of the argument [timestamp] the code only
    asks whether it is [None]. *)
Definition get_file_key (ts : string)
    (transcription_job_name folder_path identity_id output_format : string)
    (model_id language timestamp : option string) : string :=
  let stem :=
    String.append identity_id
      (String.append "/" (String.append folder_path transcription_job_name)) in
  let ext := String.append "." output_format in
  if Str.truthy language && Str.truthy model_id then
    match timestamp with
    | None =>
        String.append stem
          (String.append "-" (String.append (Str.render model_id)
             (String.append "-" (String.append (Str.render language) ext))))
    | Some _ =>
        String.append stem
          (String.append "-" (String.append (Str.render model_id)
             (String.append "-" (String.append ts
                (String.append "-" (String.append (Str.render language) ext))))))
    end
  else if Str.truthy language then
    String.append stem
      (String.append "-" (String.append (Str.render language) ext))
  else if Str.truthy model_id then
    String.append stem
      (String.append "-" (String.append (Str.render model_id) ext))
  else
    String.append stem ext.

(** *** s3_utils.py: [move_s3_object] *)

(** The world after a request that the log of calls has no entry for: the
    store's availability moves on by one request. *)
Definition advanced (w : world) : world :=
  {| s3_objects := s3_objects w; s3_faults := tail (s3_faults w);
     calls := calls w |}.

(** The world after the object at [key] of [bucket] is deleted. *)
Definition removed (bucket key : string) (w : world) : world :=
  {| s3_objects := delete (bucket, key) (s3_objects w);
     s3_faults := s3_faults w; calls := calls w |}.

(** A copy or delete request to the object store; it fails when the store
    is unreachable. The log has entries for the requests of the cache and of
    the decision engine only. *)
Definition s3_admin_request : M unit :=
  fun w =>
    match s3_faults w with
    | true :: _ => (Raise EndpointConnectionError, advanced w)
    | _ => (Ok tt, advanced w)
    end.

(** [s3.copy(copy_source, bucket, key)], the managed copy of boto3: it asks
    for the source's metadata, then copies on the server. *)
Definition copy (source_bucket source_key bucket key : string) : M unit :=
  head_object source_bucket source_key ;;;
  s3_admin_request ;;;
  o <- read_object source_bucket source_key ;;
  match o with
  | Some body => fun w => (Ok tt, stored bucket key body w)
  | None => raise (ClientError "NoSuchKey")
  end.

(** [s3.delete_object]; deleting an absent key succeeds. *)
Definition delete_object (bucket key : string) : M unit :=
  s3_admin_request ;;;
  fun w => (Ok tt, removed bucket key w).

Definition move_s3_object (source_bucket source_key destination_bucket
    destination_key : string) : M unit :=
  exists_ <- check_s3_file_exists destination_bucket destination_key ;;
  if exists_ : bool then ret tt
  else
    try_except
      (copy source_bucket source_key destination_bucket destination_key ;;;
       delete_object source_bucket source_key)
      log_and_reraise.

(** *** s3_cache_utils.py: [get_or_generate_translation] *)

Section Translation.

Variable pyobj : Type.
Variable json_dumps : pyobj -> outcome (list byte).
Variable json_loads : list byte -> outcome pyobj.

(** The call of [call_translation_function] on its three arguments; it is
    logged as a generation. *)
Definition call_translation
    (call_translation_function : string -> string -> string -> outcome pyobj)
    (text_to_translate source_language_code destination_language_code : string)
    : M pyobj :=
  emit Generate ;;;
  lift (call_translation_function text_to_translate source_language_code
          destination_language_code).

Definition get_or_generate_translation (bucket_name file_key : string)
    (call_translation_function : string -> string -> string -> outcome pyobj)
    (text_to_translate source_language_code destination_language_code : string)
    : M (pyobj * bool) :=
  try_except
    (file_exists <- check_s3_file_exists bucket_name file_key ;;
     translation_response <-
       (if file_exists : bool then
          get_json_from_s3 pyobj json_loads bucket_name file_key
        else
          translation_response <-
            call_translation call_translation_function text_to_translate
              source_language_code destination_language_code ;;
          write_json_to_s3 pyobj json_dumps bucket_name file_key
            translation_response ;;;
          ret translation_response) ;;
     ret (translation_response, file_exists))
    log_and_reraise.

End Translation.

(** *** get-translation/lambda-handler.py: [get_translate_language_code] *)

Definition get_translate_language_code (language_code : string) : string :=
  let language_code := Py.slice_to language_code 2 in
  if String.eqb language_code "nb" then "no" else language_code.

(** An encoding is a run of digits of the key-safe alphabet, as long as
    the unpadded encoding of [n] bytes, followed by padding. *)
Definition encoded (n : nat) (out : string) : Prop :=
  exists body pad,
    out = String.append body pad
    /\ Py.all key_safe body = true
    /\ String.length body = ((4 * n + 2) / 3)%nat
    /\ Py.all (Ascii.eqb "=") pad = true.

(** The part of a reference that [deterministic_hash] digests: the
    reference from its first [videos] on, or all of it. *)
Definition hashed_part (file_key : string) : string :=
  if negb (Py.find file_key "videos" =? -1)
  then Py.slice_from file_key (Py.find file_key "videos")
  else file_key.

(** Equality of bytes is decidable. *)
#[local] Instance byte_eq_decision : EqDecision byte := Byte.byte_eq_dec.

(** *** More sample inputs *)

Module Fixture.

(** A digest function with 32-byte digests. *)
Definition zero_digest (data : list byte) : list byte :=
  repeat "000"%byte 32.

(** A bucket that holds a finished transcription in the temporary folder. *)
Definition temp_key : string := "temp/transcriptions/jobA.json".
Definition final_key : string := "u1/transcriptions/jobA.json".

Definition transcribed_world : world :=
  {| s3_objects := {[ ("media", temp_key) := list_byte_of_string "a transcript" ]};
     s3_faults := []; calls := [] |}.

(** A speech service that lists a language but has no voice for it, and one
    whose synchronous operation fails. *)
Definition voiceless : polly_client :=
  {| describe_voices :=
       fun language_code =>
         match language_code with
         | None => Ok (Some [Sample.joanna])
         | Some _ => Ok (Some [])
         end;
     polly_synthesize_speech := fun _ => Ok None;
     start_speech_synthesis_task := fun _ => Ok "task-1" |}.

Definition failing : polly_client :=
  {| describe_voices := describe_voices Sample.speech;
     polly_synthesize_speech := fun _ => Raise (ClientError "ServiceFailureException");
     start_speech_synthesis_task := fun _ => Raise (ClientError "ServiceFailureException") |}.

End Fixture.

(** ** Facts about the string operations *)

Section PyFacts.
Import Py.

Lemma len_nonneg s : 0 <= len s.
Proof. unfold len. lia. Qed.

Lemma append_nil_l t : String.append EmptyString t = t.
Proof. reflexivity. Qed.

Lemma append_cons a s t :
  String.append (String a s) t = String a (String.append s t).
Proof. reflexivity. Qed.

Lemma append_nil_r s : String.append s EmptyString = s.
Proof.
  induction s as [|a s IH]; [reflexivity|].
  now rewrite append_cons, IH.
Qed.

Lemma append_assoc s t u :
  String.append (String.append s t) u = String.append s (String.append t u).
Proof.
  induction s as [|a s IH]; [reflexivity|].
  now rewrite !append_cons, IH.
Qed.

Lemma length_append s t :
  String.length (String.append s t) = (String.length s + String.length t)%nat.
Proof.
  induction s as [|a s IH]; [reflexivity|].
  rewrite append_cons. cbn [String.length]. now rewrite IH.
Qed.

Lemma len_append s t : len (String.append s t) = len s + len t.
Proof. unfold len. rewrite length_append. lia. Qed.

Lemma str_take_drop n s : String.append (str_take n s) (str_drop n s) = s.
Proof.
  revert s. induction n as [|n IH]; intros [|a s]; cbn [str_take str_drop];
    try reflexivity.
  now rewrite append_cons, IH.
Qed.

Lemma length_str_take n s :
  String.length (str_take n s) = Nat.min n (String.length s).
Proof.
  revert s. induction n as [|n IH]; intros [|a s]; cbn; try reflexivity.
  now rewrite IH.
Qed.

Lemma length_str_drop n s :
  String.length (str_drop n s) = (String.length s - n)%nat.
Proof.
  revert s. induction n as [|n IH]; intros [|a s]; cbn; try reflexivity.
  apply IH.
Qed.

Lemma slice_split s i : String.append (slice_to s i) (slice_from s i) = s.
Proof. apply str_take_drop. Qed.

Lemma len_slice_to_pos s i : 0 <= i -> len (slice_to s i) = Z.min i (len s).
Proof.
  intros Hi. unfold slice_to, slice_bound, len.
  rewrite length_str_take.
  destruct (Z.ltb_spec i 0); [lia|]. unfold len. lia.
Qed.

Lemma len_slice_from_pos s i :
  0 <= i -> len (slice_from s i) = len s - Z.min i (len s).
Proof.
  intros Hi. unfold slice_from, slice_bound, len.
  rewrite length_str_drop.
  destruct (Z.ltb_spec i 0); [lia|]. unfold len. lia.
Qed.

Lemma rfind_range s c : -1 <= rfind s c < len s.
Proof.
  unfold len. induction s as [|a s IH]; cbn [rfind String.length].
  - lia.
  - destruct (Z.leb_spec 0 (rfind s c)).
    + lia.
    + destruct (Ascii.eqb a c); lia.
Qed.

Lemma length_lstrip_by p s :
  (String.length (lstrip_by p s) <= String.length s)%nat.
Proof.
  induction s as [|a s IH]; cbn; [lia|].
  destruct (p a); cbn; lia.
Qed.

Lemma length_rstrip_by p s :
  (String.length (rstrip_by p s) <= String.length s)%nat.
Proof.
  induction s as [|a s IH]; cbn [rstrip_by String.length]; [lia|].
  destruct (rstrip_by p s) as [|b r].
  - destruct (p a); cbn; lia.
  - cbn [String.length] in *. lia.
Qed.

Lemma len_strip s : len (strip s) <= len s.
Proof.
  unfold len, strip.
  pose proof (length_rstrip_by isspace (lstrip_by isspace s)).
  pose proof (length_lstrip_by isspace s). lia.
Qed.

Lemma all_keep (p q : ascii -> bool) s :
  (forall c, p c = true -> q c = true) -> all q (keep p s) = true.
Proof.
  intros Hpq. induction s as [|a s IH]; cbn [keep all]; [reflexivity|].
  destruct (p a) eqn:Hp; [|exact IH].
  cbn [all]. now rewrite (Hpq a Hp), IH.
Qed.

End PyFacts.

(** ** The model on concrete inputs *)

Example b64_three_bytes :
  Codec.decode (Codec.urlsafe_b64encode (list_byte_of_string "Man")) = "TWFu".
Proof. reflexivity. Qed.

Example b64_padding :
  Codec.decode (Codec.urlsafe_b64encode (list_byte_of_string "light work."))
    = "bGlnaHQgd29yay4=".
Proof. reflexivity. Qed.

Example b64_urlsafe_digits :
  Codec.decode (Codec.urlsafe_b64encode ["251"; "255"; "254"]%byte) = "-__-".
Proof. reflexivity. Qed.

Example find_videos : Py.find "s3://bucket/videos/lecture1.mp4" "videos" = 12.
Proof. reflexivity. Qed.

Example find_nothing : Py.find "lecture1.mp4" "videos" = -1.
Proof. reflexivity. Qed.

Example slice_negative : Py.slice_to "abcdef" (-2) = "abcd".
Proof. reflexivity. Qed.

Example chunks_at_sentences :
  split_text_into_chunks 40 "Hello world. This is a test. Bye" 15
    = Some ["Hello world."; "This is a test"; ". Bye"].
Proof. reflexivity. Qed.

Example chunks_hard_cut :
  split_text_into_chunks 40 "Helloworldthisisatest" 5
    = Some ["Hello"; "world"; "thisi"; "sates"; "t"].
Proof. reflexivity. Qed.

(** The prefix before the marker does not take part in the identifier. *)
Example deterministic_hash_truncates (sha256 : list byte -> list byte) :
  deterministic_hash sha256 "s3://bucket/videos/lecture1.mp4"
    = deterministic_hash sha256 "videos/lecture1.mp4".
Proof. reflexivity. Qed.

(** ** The text chunking helper *)

Section Chunking.
Import Py.

Lemma split_index_range text max_length :
  1 <= max_length -> max_length < len text ->
  let i := rfind (slice_to text max_length) "." + 1 in
  1 <= (if i =? 0 then max_length else i) <= max_length.
Proof.
  intros Hmax Hlen i.
  pose proof (rfind_range (slice_to text max_length) ".") as Hr.
  rewrite len_slice_to_pos in Hr by lia.
  subst i. destruct (Z.eqb_spec (rfind (slice_to text max_length) "." + 1) 0); lia.
Qed.

(** The loop, from any state it can be in: with more fuel than the text
    has characters it ends, having cut the text into the pieces
    [earlier] and the remainder [rest]. *)
Lemma split_loop_spec max_length :
  1 <= max_length ->
  forall fuel text chunks,
    (String.length text < fuel)%nat ->
    exists earlier rest,
      split_loop fuel text max_length chunks
        = Some (chunks ++ map strip earlier ++ [strip rest])
      /\ text = String.append (join earlier) rest
      /\ Forall (fun piece => 1 <= len piece <= max_length) earlier
      /\ len rest <= max_length.
Proof.
  intros Hmax. induction fuel as [|fuel IH]; intros text chunks Hfuel; [lia|].
  cbn [split_loop].
  destruct (Z.ltb_spec max_length (len text)) as [Hlong|Hshort].
  - set (i := if rfind (slice_to text max_length) "." + 1 =? 0
              then max_length
              else rfind (slice_to text max_length) "." + 1).
    assert (Hi : 1 <= i <= max_length)
      by (apply split_index_range; assumption).
    assert (Hrest : (String.length (slice_from text i) < fuel)%nat).
    { pose proof (len_slice_from_pos text i) as Hd. unfold len in *. lia. }
    destruct (IH (slice_from text i) (chunks ++ [strip (slice_to text i)]) Hrest)
      as (earlier & rest & Hrun & Hcat & Hall & Hlast).
    exists (slice_to text i :: earlier), rest. repeat split.
    + rewrite Hrun. cbn [map]. now rewrite <- app_assoc.
    + cbn [join]. rewrite append_assoc, <- Hcat. symmetry. apply slice_split.
    + constructor; [|exact Hall]. rewrite len_slice_to_pos by lia. lia.
    + exact Hlast.
  - exists [], text. repeat split; auto.
Qed.

(** A text within the limit is returned whole, whatever the limit. *)
Lemma split_loop_short fuel text max_length chunks :
  len text <= max_length ->
  split_loop (S fuel) text max_length chunks = Some (chunks ++ [strip text]).
Proof.
  intros Hshort. cbn [split_loop].
  now rewrite (proj2 (Z.ltb_ge _ _) Hshort).
Qed.

(** With a limit of zero or less, a text above the limit stays above it:
    the loop condition never fails. *)
Lemma split_loop_diverges max_length :
  max_length <= 0 ->
  forall fuel text chunks,
    max_length < len text ->
    split_loop fuel text max_length chunks = None.
Proof.
  intros Hmax. induction fuel as [|fuel IH]; intros text chunks Hlong;
    [reflexivity|].
  cbn [split_loop]. rewrite (proj2 (Z.ltb_lt _ _) Hlong).
  apply IH.
  destruct (Z.eq_dec max_length 0) as [->|Hneg].
  - pose proof (rfind_range (slice_to text 0) ".") as Hr.
    rewrite len_slice_to_pos in Hr by lia.
    pose proof (len_nonneg text).
    replace (rfind (slice_to text 0) "." + 1) with 0 by lia.
    cbn [Z.eqb]. rewrite len_slice_from_pos by lia. lia.
  - match goal with |- _ < len ?t => pose proof (len_nonneg t) end. lia.
Qed.

End Chunking.

(** C9, as the claim states it, fails: with [max_length = 0] the loop never
    ends on the text ["a"], whatever the fuel. *)
Lemma split_text_into_chunks_zero_never_returns :
  ~ exists fuel chunks, split_text_into_chunks fuel "a" 0 = Some chunks.
Proof.
  intros (fuel & chunks & H). unfold split_text_into_chunks in H.
  rewrite (split_loop_diverges 0) in H; [discriminate|lia|reflexivity].
Qed.

(** C9 (amended): for every text and every [max_length] that is at least 1
    (or at least the length of the text), [split_text_into_chunks]
    terminates (any fuel above the length of the text is enough) and returns
    a finite list of chunks, each of length at most [max_length]; the chunks
    are the whitespace-stripped pieces of a cut of the text, the final chunk
    being the stripped remainder after the earlier pieces. *)
Theorem split_text_into_chunks_bounded (text : string) (max_length : Z) (fuel : nat) :
  1 <= max_length \/ Py.len text <= max_length ->
  (String.length text < fuel)%nat ->
  exists chunks,
    split_text_into_chunks fuel text max_length = Some chunks
    /\ Forall (fun chunk => Py.len chunk <= max_length) chunks
    /\ exists earlier rest,
         text = String.append (Py.join earlier) rest
         /\ chunks = map Py.strip earlier ++ [Py.strip rest].
Proof.
  intros [Hmax|Hshort] Hfuel.
  - destruct (split_loop_spec max_length Hmax fuel text [] Hfuel)
      as (earlier & rest & Hrun & Hcat & Hall & Hlast).
    exists (map Py.strip earlier ++ [Py.strip rest]). split; [exact Hrun|]. split.
    + apply Forall_app. split.
      * apply List.Forall_map. eapply List.Forall_impl; [|exact Hall].
        intros piece Hp. cbn beta in *. pose proof (len_strip piece). lia.
      * constructor; [|constructor]. pose proof (len_strip rest). lia.
    + exists earlier, rest. split; [exact Hcat|reflexivity].
  - destruct fuel as [|fuel]; [lia|].
    exists [Py.strip text]. split; [|split].
    + unfold split_text_into_chunks. now rewrite split_loop_short.
    + constructor; [|constructor]. pose proof (len_strip text). lia.
    + exists [], text. split; reflexivity.
Qed.

(** Outside those limits the function does not return: the condition of the
    amended claim is exactly the one under which the loop ends. *)
Lemma split_text_into_chunks_returns_iff (text : string) (max_length : Z) :
  (exists fuel chunks, split_text_into_chunks fuel text max_length = Some chunks)
  <-> 1 <= max_length \/ Py.len text <= max_length.
Proof.
  split.
  - intros (fuel & chunks & Hrun).
    destruct (Z_le_gt_dec 1 max_length) as [Hmax|Hmax]; [now left|right].
    destruct (Z_le_gt_dec (Py.len text) max_length) as [Hshort|Hlong];
      [exact Hshort|].
    unfold split_text_into_chunks in Hrun.
    rewrite (split_loop_diverges max_length) in Hrun; [discriminate|lia|lia].
  - intros [Hmax|Hshort]; exists (S (String.length text)).
    + destruct (split_loop_spec max_length Hmax (S (String.length text)) text []
                  (Nat.lt_succ_diag_r _)) as (earlier & rest & Hrun & _).
      eexists. exact Hrun.
    + eexists. unfold split_text_into_chunks. now apply split_loop_short.
Qed.

Lemma split_text_into_chunks_bounded_witness :
  (1 <= 15 \/ Py.len "Hello world. This is a test. Bye" <= 15)
  /\ (String.length "Hello world. This is a test. Bye" < 40)%nat
  /\ exists chunks,
       split_text_into_chunks 40 "Hello world. This is a test. Bye" 15 = Some chunks
       /\ Forall (fun chunk => Py.len chunk <= 15) chunks
       /\ exists earlier rest,
            "Hello world. This is a test. Bye" = String.append (Py.join earlier) rest
            /\ chunks = map Py.strip earlier ++ [Py.strip rest].
Proof.
  split; [left; lia|]. split; [cbn; lia|].
  apply (split_text_into_chunks_bounded "Hello world. This is a test. Bye" 15 40).
  - left. lia.
  - cbn; lia.
Defined.

(** ** The key of an asynchronously synthesized file *)

Lemma append_longer_neq s t : t <> EmptyString -> String.append s t <> s.
Proof.
  intros Ht Heq. apply (f_equal String.length) in Heq.
  rewrite length_append in Heq. destruct t; [congruence|]. cbn in Heq. lia.
Qed.

(** C10: [get_synthesis_file_key file_key task_id output_format] is
    [file_key + task_id + "." + output_format]; it is strictly longer than
    [file_key], so it differs from it, and an object stored under it in a
    bucket leaves the entry at [file_key], the one the existence check of
    the engine looks up, as it was. *)
Theorem get_synthesis_file_key_differs (file_key task_id output_format : string) :
  get_synthesis_file_key file_key task_id output_format
    = String.append file_key (String.append task_id (String.append "." output_format))
  /\ Py.len file_key < Py.len (get_synthesis_file_key file_key task_id output_format)
  /\ get_synthesis_file_key file_key task_id output_format <> file_key
  /\ forall (bucket : string) (audio : list byte) (w : world),
       let w' := stored bucket
                   (get_synthesis_file_key file_key task_id output_format)
                   audio w in
       s3_objects w' !! (bucket, file_key) = s3_objects w !! (bucket, file_key)
       /\ (check_s3_file_exists bucket file_key w').1
          = (check_s3_file_exists bucket file_key w).1.
Proof.
  assert (Hne : get_synthesis_file_key file_key task_id output_format <> file_key).
  { unfold get_synthesis_file_key. apply append_longer_neq.
    destruct task_id; discriminate. }
  split; [reflexivity|]. split; [|split; [exact Hne|]].
  - unfold get_synthesis_file_key. rewrite !len_append.
    pose proof (len_nonneg task_id). pose proof (len_nonneg output_format).
    change (Py.len ".") with 1. lia.
  - intros bucket audio w w'.
    assert (Hsame : s3_objects w' !! (bucket, file_key)
                    = s3_objects w !! (bucket, file_key)).
    { subst w'. cbn [stored s3_objects]. apply lookup_insert_ne. congruence. }
    split; [exact Hsame|].
    unfold check_s3_file_exists, head_object, s3_request, read_object,
      try_except, bind, ret, raise.
    replace (s3_faults w') with (s3_faults w) by reflexivity.
    destruct (s3_faults w) as [|[] faults]; cbn [requested s3_objects];
      rewrite ?Hsame; destruct (s3_objects w !! (bucket, file_key));
      reflexivity.
Qed.

(** ** The deterministic identifier *)

Lemma allowed_chars_key_safe c :
  Py.contains ALLOWED_CHARS_HASH c = true -> key_safe c = true.
Proof.
  destruct c as [[] [] [] [] [] [] [] []]; vm_compute; congruence.
Qed.

Lemma key_safe_allowed_chars c :
  key_safe c = true -> Py.contains ALLOWED_CHARS_HASH c = true.
Proof.
  destruct c as [[] [] [] [] [] [] [] []]; vm_compute; congruence.
Qed.

(** C8: whatever the input (and whatever the digest), every character of
    the output of [deterministic_hash] is in [[A-Za-z0-9._-]]. *)
Theorem deterministic_hash_alphabet (sha256 : list byte -> list byte)
    (file_key : string) :
  Py.all key_safe (deterministic_hash sha256 file_key) = true.
Proof.
  unfold deterministic_hash. apply all_keep. exact allowed_chars_key_safe.
Qed.

(** ** Running effects *)

Section Effects.

Lemma bind_ok {A B} (m : M A) (k : A -> M B) w a w' :
  m w = (Ok a, w') -> bind m k w = k a w'.
Proof. intros H. unfold bind. now rewrite H. Qed.

Lemma bind_raise {A B} (m : M A) (k : A -> M B) w e w' :
  m w = (Raise e, w') -> bind m k w = (Raise e, w').
Proof. intros H. unfold bind. now rewrite H. Qed.

Lemma try_except_ok {A} (m : M A) h w a w' :
  m w = (Ok a, w') -> try_except m h w = (Ok a, w').
Proof. intros H. unfold try_except. now rewrite H. Qed.

Lemma try_except_raise {A} (m : M A) h w e w' :
  m w = (Raise e, w') -> try_except m h w = h e w'.
Proof. intros H. unfold try_except. now rewrite H. Qed.

(** A handler that logs and raises again changes nothing. *)
Lemma try_reraise {A} (m : M A) w : try_except m log_and_reraise w = m w.
Proof. unfold try_except. now destruct (m w) as [[a|e] w']. Qed.

Lemma count_app p log log' : count p (log ++ log') = (count p log + count p log')%nat.
Proof. unfold count. now rewrite filter_app, length_app. Qed.

Lemma count_snoc p log e :
  count p (log ++ [e]) = (count p log + if p e then 1 else 0)%nat.
Proof.
  rewrite count_app. f_equal. unfold count.
  destruct (p e) eqn:Hp.
  - now rewrite filter_cons_True.
  - rewrite filter_cons_False; [reflexivity|congruence].
Qed.

Lemma reachable_tail n faults :
  reachable (S n) faults = true -> reachable n (tail faults) = true.
Proof.
  destruct faults as [|f faults]; cbn.
  - now destruct n.
  - now intros [_ H]%andb_true_iff.
Qed.

Lemma reachable_one n faults :
  reachable (S n) faults = true -> reachable 1 faults = true.
Proof.
  destruct faults as [|f faults]; cbn; [reflexivity|].
  intros [-> _]%andb_true_iff. reflexivity.
Qed.

Lemma s3_request_reachable e w :
  reachable 1 (s3_faults w) = true -> s3_request e w = (Ok tt, requested e w).
Proof.
  unfold s3_request. destruct (s3_faults w) as [|[] faults]; cbn;
    [reflexivity|discriminate|reflexivity].
Qed.

Lemma s3_request_unreachable e w faults :
  s3_faults w = true :: faults ->
  s3_request e w = (Raise EndpointConnectionError, requested e w).
Proof. intros H. unfold s3_request. now rewrite H. Qed.

Lemma head_object_present bucket key body w :
  s3_objects w !! (bucket, key) = Some body ->
  reachable 1 (s3_faults w) = true ->
  head_object bucket key w = (Ok tt, requested (S3HeadObject bucket key) w).
Proof.
  intros Hobj Hup. unfold head_object.
  rewrite (bind_ok _ _ _ _ _ (s3_request_reachable _ _ Hup)).
  unfold bind, read_object. cbn [requested s3_objects]. now rewrite Hobj.
Qed.

Lemma head_object_absent bucket key w :
  s3_objects w !! (bucket, key) = None ->
  exists e, head_object bucket key w
            = (Raise e, requested (S3HeadObject bucket key) w).
Proof.
  intros Hobj. unfold head_object, bind, s3_request, read_object.
  destruct (s3_faults w) as [|[] faults]; cbn [requested s3_objects];
    rewrite ?Hobj; eauto.
Qed.

Lemma head_object_unreachable bucket key w faults :
  s3_faults w = true :: faults ->
  head_object bucket key w
    = (Raise EndpointConnectionError, requested (S3HeadObject bucket key) w).
Proof.
  intros H. unfold head_object.
  now rewrite (bind_raise _ _ _ _ _ (s3_request_unreachable _ _ _ H)).
Qed.

Lemma get_object_present bucket key body w :
  s3_objects w !! (bucket, key) = Some body ->
  reachable 1 (s3_faults w) = true ->
  get_object bucket key w = (Ok body, requested (S3GetObject bucket key) w).
Proof.
  intros Hobj Hup. unfold get_object.
  rewrite (bind_ok _ _ _ _ _ (s3_request_reachable _ _ Hup)).
  unfold bind, read_object. cbn [requested s3_objects]. now rewrite Hobj.
Qed.

Lemma put_object_reachable bucket key body w :
  reachable 1 (s3_faults w) = true ->
  put_object bucket key body w
    = (Ok tt, stored bucket key body (requested (S3PutObject bucket key body) w)).
Proof.
  intros Hup. unfold put_object.
  now rewrite (bind_ok _ _ _ _ _ (s3_request_reachable _ _ Hup)).
Qed.

(** *** The existence check *)

Lemma check_s3_file_exists_present bucket key body w :
  s3_objects w !! (bucket, key) = Some body ->
  reachable 1 (s3_faults w) = true ->
  check_s3_file_exists bucket key w
    = (Ok true, requested (S3HeadObject bucket key) w).
Proof.
  intros Hobj Hup. unfold check_s3_file_exists.
  apply try_except_ok.
  now rewrite (bind_ok _ _ _ _ _ (head_object_present _ _ _ _ Hobj Hup)).
Qed.

Lemma check_s3_file_exists_absent bucket key w :
  s3_objects w !! (bucket, key) = None ->
  check_s3_file_exists bucket key w
    = (Ok false, requested (S3HeadObject bucket key) w).
Proof.
  intros Hobj. unfold check_s3_file_exists.
  destruct (head_object_absent _ _ _ Hobj) as [e He].
  rewrite (try_except_raise _ _ _ e (requested (S3HeadObject bucket key) w));
    [reflexivity|].
  now rewrite (bind_raise _ _ _ _ _ He).
Qed.

(** An unreachable store is reported as an absent file. *)
Lemma check_s3_file_exists_unreachable bucket key w faults :
  s3_faults w = true :: faults ->
  check_s3_file_exists bucket key w
    = (Ok false, requested (S3HeadObject bucket key) w).
Proof.
  intros H. unfold check_s3_file_exists.
  rewrite (try_except_raise _ _ _ EndpointConnectionError
             (requested (S3HeadObject bucket key) w)); [reflexivity|].
  now rewrite (bind_raise _ _ _ _ _ (head_object_unreachable _ _ _ _ H)).
Qed.

End Effects.

(** ** The response cache *)

Section ResponseCache.

Variable pyobj : Type.
Variable json_dumps : pyobj -> outcome (list byte).
Variable json_loads : list byte -> outcome pyobj.

Local Abbreviation get_or_generate :=
  (get_or_generate_bedrock_response pyobj json_dumps json_loads).

Lemma get_json_from_s3_present bucket key body w :
  s3_objects w !! (bucket, key) = Some body ->
  reachable 2 (s3_faults w) = true ->
  get_json_from_s3 pyobj json_loads bucket key w
    = (json_loads body,
       requested (S3GetObject bucket key) (requested (S3HeadObject bucket key) w)).
Proof.
  intros Hobj Hup. unfold get_json_from_s3. rewrite try_reraise.
  rewrite (bind_ok _ _ _ _ _
             (head_object_present _ _ _ _ Hobj (reachable_one _ _ Hup))).
  rewrite (bind_ok _ _ _ body
             (requested (S3GetObject bucket key)
                (requested (S3HeadObject bucket key) w))).
  - unfold bind, lift, ret. now destruct (json_loads body).
  - apply get_object_present; [exact Hobj|].
    cbn [requested s3_faults]. now apply (reachable_tail 1).
Qed.

Lemma write_json_to_s3_reachable bucket key v body w :
  json_dumps v = Ok body ->
  reachable 1 (s3_faults w) = true ->
  write_json_to_s3 pyobj json_dumps bucket key v w
    = (Ok key, stored bucket key body (requested (S3PutObject bucket key body) w)).
Proof.
  intros Hdump Hup. unfold write_json_to_s3.
  rewrite (bind_ok _ _ _ body w) by (unfold lift; now rewrite Hdump).
  rewrite try_reraise.
  now rewrite (bind_ok _ _ _ _ _ (put_object_reachable _ _ _ _ Hup)).
Qed.

(** What a hit does, in full: two probes and one read. *)
Lemma get_or_generate_hit {A} bucket key (generate : A -> outcome pyobj) args
    body v w :
  s3_objects w !! (bucket, key) = Some body ->
  json_loads body = Ok v ->
  reachable 3 (s3_faults w) = true ->
  get_or_generate bucket key generate args w
    = (Ok (v, true),
       requested (S3GetObject bucket key)
         (requested (S3HeadObject bucket key)
            (requested (S3HeadObject bucket key) w))).
Proof.
  intros Hobj Hload Hup. unfold get_or_generate_bedrock_response.
  rewrite try_reraise.
  rewrite (bind_ok _ _ _ _ _
             (check_s3_file_exists_present _ _ _ _ Hobj (reachable_one _ _ Hup))).
  rewrite (bind_ok _ _ _ v
             (requested (S3GetObject bucket key)
                (requested (S3HeadObject bucket key)
                   (requested (S3HeadObject bucket key) w)))); [reflexivity|].
  rewrite get_json_from_s3_present with (body := body).
  - now rewrite Hload.
  - exact Hobj.
  - cbn [requested s3_faults]. now apply (reachable_tail 2).
Qed.

(** What a miss does when generation raises: one probe, one generation. *)
Lemma get_or_generate_miss_raise {A} bucket key (generate : A -> outcome pyobj)
    args e w :
  s3_objects w !! (bucket, key) = None ->
  generate args = Raise e ->
  get_or_generate bucket key generate args w
    = (Raise e, logged Generate (requested (S3HeadObject bucket key) w)).
Proof.
  intros Hobj Hgen. unfold get_or_generate_bedrock_response.
  rewrite try_reraise.
  rewrite (bind_ok _ _ _ _ _ (check_s3_file_exists_absent _ _ _ Hobj)).
  unfold call_generation, bind, emit, lift. now rewrite Hgen.
Qed.

(** What a miss does when generation and the write succeed. *)
Lemma get_or_generate_miss {A} bucket key (generate : A -> outcome pyobj) args
    v body w :
  s3_objects w !! (bucket, key) = None ->
  generate args = Ok v ->
  json_dumps v = Ok body ->
  reachable 2 (s3_faults w) = true ->
  get_or_generate bucket key generate args w
    = (Ok (v, false),
       stored bucket key body
         (requested (S3PutObject bucket key body)
            (logged Generate (requested (S3HeadObject bucket key) w)))).
Proof.
  intros Hobj Hgen Hdump Hup. unfold get_or_generate_bedrock_response.
  rewrite try_reraise.
  rewrite (bind_ok _ _ _ _ _ (check_s3_file_exists_absent _ _ _ Hobj)).
  set (w1 := logged Generate (requested (S3HeadObject bucket key) w)).
  assert (Hcall : call_generation pyobj generate args
                    (requested (S3HeadObject bucket key) w) = (Ok v, w1)).
  { unfold call_generation, bind, emit, lift. now rewrite Hgen. }
  assert (Hw1 : reachable 1 (s3_faults w1) = true).
  { subst w1. cbn [logged requested s3_faults]. now apply (reachable_tail 1). }
  rewrite (bind_ok _ _ _ v
             (stored bucket key body (requested (S3PutObject bucket key body) w1)));
    [reflexivity|].
  rewrite (bind_ok _ _ _ _ _ Hcall).
  now rewrite (bind_ok _ _ _ _ _
                 (write_json_to_s3_reachable _ _ _ _ _ Hdump Hw1)).
Qed.

(** On a miss the generation function is called once, whatever it answers
    and whatever becomes of the write. *)
Lemma get_or_generate_miss_generates {A} bucket key
    (generate : A -> outcome pyobj) args w :
  s3_objects w !! (bucket, key) = None ->
  count is_generation (calls (get_or_generate bucket key generate args w).2)
    = S (count is_generation (calls w)).
Proof.
  intros Hobj. unfold get_or_generate_bedrock_response.
  rewrite try_reraise.
  rewrite (bind_ok _ _ _ _ _ (check_s3_file_exists_absent _ _ _ Hobj)).
  unfold call_generation, write_json_to_s3, put_object, s3_request, try_except,
    bind, emit, lift, ret, log_and_reraise, raise.
  destruct (generate args) as [v|e]; cbn.
  - destruct (json_dumps v) as [body|e]; cbn.
    + destruct (s3_faults w) as [|f [|[] faults]]; cbn;
        rewrite !count_snoc; cbn; lia.
    + rewrite !count_snoc; cbn; lia.
  - rewrite !count_snoc; cbn; lia.
Qed.

(** When the store does not answer the existence check, the check reports
    the file as absent and the generation function is called, whether or not
    the key holds a value. *)
Lemma get_or_generate_unreachable_generates {A} bucket key
    (generate : A -> outcome pyobj) args w faults :
  s3_faults w = true :: faults ->
  count is_generation (calls (get_or_generate bucket key generate args w).2)
    = S (count is_generation (calls w)).
Proof.
  intros Hdown. unfold get_or_generate_bedrock_response.
  rewrite try_reraise.
  rewrite (bind_ok _ _ _ _ _ (check_s3_file_exists_unreachable _ _ _ _ Hdown)).
  unfold call_generation, write_json_to_s3, put_object, s3_request, try_except,
    bind, emit, lift, ret, log_and_reraise, raise.
  destruct (generate args) as [v|e]; cbn.
  - destruct (json_dumps v) as [body|e]; cbn.
    + rewrite Hdown. destruct faults as [|[] faults']; cbn;
        rewrite !count_snoc; cbn; lia.
    + rewrite !count_snoc; cbn; lia.
  - rewrite !count_snoc; cbn; lia.
Qed.

End ResponseCache.

(** C2: when the key is present in the store (and the store answers the
    requests of the call), [get_or_generate_bedrock_response] returns the
    structured value read from the store with the flag [true], the
    generation function is not called, and the store is left as it was. *)
Theorem cache_hit_suppresses_generation
    (pyobj : Type) (json_dumps : pyobj -> outcome (list byte))
    (json_loads : list byte -> outcome pyobj)
    (A : Type) (bucket key : string) (generate : A -> outcome pyobj) (args : A)
    (body : list byte) (v : pyobj) (w : world) :
  s3_objects w !! (bucket, key) = Some body ->
  json_loads body = Ok v ->
  reachable 3 (s3_faults w) = true ->
  let run := get_or_generate_bedrock_response pyobj json_dumps json_loads
               bucket key generate args w in
  run.1 = Ok (v, true)
  /\ count is_generation (calls run.2) = count is_generation (calls w)
  /\ s3_objects run.2 = s3_objects w.
Proof.
  intros Hobj Hload Hup run. subst run.
  rewrite (get_or_generate_hit _ _ _ _ _ _ _ _ _ _ Hobj Hload Hup).
  cbn [fst snd requested calls s3_objects]. repeat split.
  rewrite !count_snoc. cbn. lia.
Qed.

(** C3: when the key is absent, the generation function answers [v] and the
    store takes the write, [get_or_generate_bedrock_response] calls the
    generation function exactly once, writes to the store exactly once, at
    that key, and returns [v] with the flag [false]. *)
Theorem cache_miss_persists_once
    (pyobj : Type) (json_dumps : pyobj -> outcome (list byte))
    (json_loads : list byte -> outcome pyobj)
    (A : Type) (bucket key : string) (generate : A -> outcome pyobj) (args : A)
    (v : pyobj) (body : list byte) (w : world) :
  s3_objects w !! (bucket, key) = None ->
  generate args = Ok v ->
  json_dumps v = Ok body ->
  reachable 2 (s3_faults w) = true ->
  let run := get_or_generate_bedrock_response pyobj json_dumps json_loads
               bucket key generate args w in
  run.1 = Ok (v, false)
  /\ count is_generation (calls run.2) = S (count is_generation (calls w))
  /\ count is_write (calls run.2) = S (count is_write (calls w))
  /\ calls run.2 = calls w ++ [S3HeadObject bucket key; Generate;
                               S3PutObject bucket key body]
  /\ s3_objects run.2 = <[(bucket, key) := body]> (s3_objects w).
Proof.
  intros Hobj Hgen Hdump Hup run. subst run.
  rewrite (get_or_generate_miss _ _ _ _ _ _ _ _ _ _ Hobj Hgen Hdump Hup).
  cbn [fst snd stored requested logged calls s3_objects]. repeat split.
  - rewrite !count_snoc. cbn. lia.
  - rewrite !count_snoc. cbn. lia.
  - now rewrite <- !app_assoc.
Qed.

(** C4: when the key is absent and the generation function raises [e],
    [get_or_generate_bedrock_response] raises [e] to its caller and writes
    nothing: the store is unchanged and still has no object at the key, so
    that a later call with the same key calls its generation function
    again. *)
Theorem generation_failure_leaves_no_trace
    (pyobj : Type) (json_dumps : pyobj -> outcome (list byte))
    (json_loads : list byte -> outcome pyobj)
    (A : Type) (bucket key : string) (generate : A -> outcome pyobj) (args : A)
    (e : exn) (w : world) :
  s3_objects w !! (bucket, key) = None ->
  generate args = Raise e ->
  let run := get_or_generate_bedrock_response pyobj json_dumps json_loads
               bucket key generate args w in
  run.1 = Raise e
  /\ count is_write (calls run.2) = count is_write (calls w)
  /\ s3_objects run.2 = s3_objects w
  /\ s3_objects run.2 !! (bucket, key) = None
  /\ forall (B : Type) (retry : B -> outcome pyobj) (args' : B),
       count is_generation
         (calls (get_or_generate_bedrock_response pyobj json_dumps json_loads
                   bucket key retry args' run.2).2)
       = S (count is_generation (calls run.2)).
Proof.
  intros Hobj Hgen run.
  assert (Hkeep : s3_objects run.2 = s3_objects w).
  { subst run. now rewrite (get_or_generate_miss_raise _ _ _ _ _ _ _ _ _ Hobj Hgen). }
  repeat split.
  - subst run. now rewrite (get_or_generate_miss_raise _ _ _ _ _ _ _ _ _ Hobj Hgen).
  - subst run. rewrite (get_or_generate_miss_raise _ _ _ _ _ _ _ _ _ Hobj Hgen).
    cbn [snd logged requested calls]. rewrite !count_snoc. cbn. lia.
  - exact Hkeep.
  - now rewrite Hkeep.
  - intros B retry args'. apply get_or_generate_miss_generates.
    now rewrite Hkeep.
Qed.

(** C5 (the code at the failing input): the key holds a valid cached value,
    and the store is unreachable for the existence check alone. The check
    swallows the failure and answers that the file is absent: nothing is
    raised, the generation function is called although a cached value
    exists, and the cached object is overwritten. *)
Theorem unreachable_store_is_swallowed
    (pyobj : Type) (cached fresh : pyobj) (body body' : list byte) :
  let w := {| s3_objects := {[ ("media", "k") := body ]};
              s3_faults := [true]; calls := [] |} in
  get_or_generate_bedrock_response pyobj
    (fun _ => Ok body') (fun _ => Ok cached)
    "media" "k" (fun _ : unit => Ok fresh) tt w
  = (Ok (fresh, false),
     {| s3_objects := {[ ("media", "k") := body' ]};
        s3_faults := [];
        calls := [S3HeadObject "media" "k"; Generate;
                  S3PutObject "media" "k" body'] |}).
Proof.
  intros w. unfold get_or_generate_bedrock_response.
  rewrite try_reraise.
  rewrite (bind_ok _ _ _ _ _
             (check_s3_file_exists_unreachable "media" "k" w [] eq_refl)).
  cbv [call_generation write_json_to_s3 put_object s3_request try_except
       bind emit lift ret log_and_reraise raise logged requested stored w
       s3_objects s3_faults calls tail app].
  now rewrite insert_singleton_eq.
Qed.

(** ** The synthesis decision engine *)

Section Synthesis.

Variable polly : polly_client.
Variables bucket_name file_key output_format language_code : string.
Variable voices : list voice.
Variable default_voice : voice.
Variable other_voices : list voice.

Hypothesis languages_listed : describe_voices polly None = Ok (Some voices).
Hypothesis voice_available :
  describe_voices polly (Some language_code)
    = Ok (Some (default_voice :: other_voices)).
Hypothesis language_supported : language_code ∈ LanguageCode <$> voices.

Local Abbreviation sync_request text engine :=
  (synchronous_request text output_format language_code default_voice engine).
Local Abbreviation async_request text engine :=
  (asynchronous_request bucket_name file_key text output_format language_code
     default_voice engine).

Lemma get_default_voice_for_language_available w :
  get_default_voice_for_language polly language_code w
    = (Ok default_voice, logged (PollyDescribeVoices (Some language_code)) w).
Proof.
  unfold get_default_voice_for_language. rewrite try_reraise.
  unfold polly_request, bind, emit, lift. now rewrite voice_available.
Qed.

Lemma language_check_passes :
  bool_decide (language_code ∈
                 (list_to_set (LanguageCode <$> voices) : gset string)) = true.
Proof. apply bool_decide_eq_true_2, elem_of_list_to_set, language_supported. Qed.

(** Run [synthesize_speech] up to the choice of the mode. *)
Ltac enter_supported :=
  unfold synthesize_speech;
  unfold polly_request at 1; unfold bind at 1 2 3; unfold emit at 1;
  unfold lift at 1; rewrite languages_listed;
  unfold ret at 1; cbv beta iota zeta;
  rewrite language_check_passes, try_reraise;
  rewrite (bind_ok _ _ _ _ _ (get_default_voice_for_language_available _));
  change (logged (PollyDescribeVoices (Some language_code))
            (logged (PollyDescribeVoices None) ?w))
    with (looked_up language_code w).

Ltac run_all :=
  unfold process_audio_stream_and_upload_to_s3, put_object, s3_request,
    polly_request, try_except, bind, emit, lift, ret, raise.

Lemma synthesize_speech_synchronous text engine engines audio w :
  Py.len text < SYNTHESIZE_MAX_LENGTH ->
  SupportedEngines default_voice = engine :: engines ->
  polly_synthesize_speech polly (sync_request text engine) = Ok (Some audio) ->
  reachable 1 (s3_faults w) = true ->
  synthesize_speech polly bucket_name file_key text output_format
    language_code false w
  = (Ok {[ "audio_key" := file_key ]},
     stored bucket_name file_key (accumulate audio [])
       (requested (S3PutObject bucket_name file_key (accumulate audio []))
          (logged (PollySynthesizeSpeech (sync_request text engine))
             (looked_up language_code w)))).
Proof.
  intros Hlen Hengine Hanswer Hup. enter_supported.
  rewrite (proj2 (Z.ltb_lt _ _) Hlen). cbn [andb negb]. rewrite Hengine.
  unfold synchronous_request in Hanswer.
  unfold polly_request, bind at 1 2, ret at 1, emit, lift. rewrite Hanswer.
  unfold process_audio_stream_and_upload_to_s3.
  etransitivity;
    [eapply bind_ok; apply put_object_reachable; exact Hup | reflexivity].
Qed.

(** Whatever the service and the store answer, a short text that is not
    forced to the asynchronous mode is sent to the synchronous operation,
    once, and no task is started. *)
Lemma synthesize_speech_synchronous_path text engine engines w :
  Py.len text < SYNTHESIZE_MAX_LENGTH ->
  SupportedEngines default_voice = engine :: engines ->
  let run := synthesize_speech polly bucket_name file_key text output_format
               language_code false w in
  count is_synchronous (calls run.2) = S (count is_synchronous (calls w))
  /\ count is_asynchronous (calls run.2) = count is_asynchronous (calls w).
Proof.
  intros Hlen Hengine run.
  assert (Hrun : run = synthesize_speech polly bucket_name file_key text
                         output_format language_code false w) by reflexivity.
  clearbody run. revert Hrun. enter_supported.
  rewrite (proj2 (Z.ltb_lt _ _) Hlen). cbn [andb negb]. rewrite Hengine.
  run_all.
  destruct (polly_synthesize_speech polly _) as [[audio|]|e];
    cbn [looked_up logged requested stored calls s3_faults snd];
    try destruct (s3_faults w) as [|[] faults];
    intros ->;
    cbn [looked_up logged requested stored calls s3_faults snd];
    rewrite !count_snoc; cbn; lia.
Qed.

Lemma synthesize_speech_asynchronous text async_processing engine engines
    task_id w :
  SYNTHESIZE_MAX_LENGTH <= Py.len text \/ async_processing = true ->
  Py.len text < ASYNC_SYNTHESIZE_MAX_LENGTH ->
  SupportedEngines default_voice = engine :: engines ->
  start_speech_synthesis_task polly (async_request text engine) = Ok task_id ->
  synthesize_speech polly bucket_name file_key text output_format
    language_code async_processing w
  = (Ok {[ "task_id" := task_id ]},
     logged (PollyStartSpeechSynthesisTask (async_request text engine))
       (looked_up language_code w)).
Proof.
  intros Hmode Hlen Hengine Hanswer. enter_supported.
  assert (Hsync : (Py.len text <? SYNTHESIZE_MAX_LENGTH)
                  && negb async_processing = false).
  { destruct Hmode as [Hlong| ->].
    - rewrite (proj2 (Z.ltb_ge _ _) Hlong). reflexivity.
    - apply andb_false_r. }
  rewrite Hsync, (proj2 (Z.ltb_lt _ _) Hlen), Hengine.
  unfold asynchronous_request in Hanswer.
  unfold polly_request, bind, ret, emit, lift. now rewrite Hanswer.
Qed.

(** Whatever the service answers, a text at or above the synchronous limit,
    or one forced to the asynchronous mode, is submitted as a task, once,
    and the synchronous operation is not called. *)
Lemma synthesize_speech_asynchronous_path text async_processing engine
    engines w :
  SYNTHESIZE_MAX_LENGTH <= Py.len text \/ async_processing = true ->
  Py.len text < ASYNC_SYNTHESIZE_MAX_LENGTH ->
  SupportedEngines default_voice = engine :: engines ->
  let run := synthesize_speech polly bucket_name file_key text output_format
               language_code async_processing w in
  count is_asynchronous (calls run.2) = S (count is_asynchronous (calls w))
  /\ count is_synchronous (calls run.2) = count is_synchronous (calls w)
  /\ s3_objects run.2 = s3_objects w.
Proof.
  intros Hmode Hlen Hengine run.
  assert (Hrun : run = synthesize_speech polly bucket_name file_key text
                         output_format language_code async_processing w)
    by reflexivity.
  clearbody run. revert Hrun. enter_supported.
  assert (Hsync : (Py.len text <? SYNTHESIZE_MAX_LENGTH)
                  && negb async_processing = false).
  { destruct Hmode as [Hlong| ->].
    - rewrite (proj2 (Z.ltb_ge _ _) Hlong). reflexivity.
    - apply andb_false_r. }
  rewrite Hsync, (proj2 (Z.ltb_lt _ _) Hlen), Hengine.
  run_all.
  destruct (start_speech_synthesis_task polly _) as [task_id|e];
    intros ->;
    cbn [looked_up logged calls s3_objects snd];
    rewrite !count_snoc; cbn; repeat split; lia.
Qed.

Lemma synthesize_speech_too_long text async_processing w :
  ASYNC_SYNTHESIZE_MAX_LENGTH <= Py.len text ->
  synthesize_speech polly bucket_name file_key text output_format
    language_code async_processing w
  = (Raise (ValueError "Error: Text is too long for polly synthesis task."),
     looked_up language_code w).
Proof.
  intros Hlen. enter_supported.
  assert (Hshort : (Py.len text <? SYNTHESIZE_MAX_LENGTH) = false).
  { apply Z.ltb_ge. unfold SYNTHESIZE_MAX_LENGTH, ASYNC_SYNTHESIZE_MAX_LENGTH in *.
    lia. }
  rewrite Hshort, (proj2 (Z.ltb_ge _ _) Hlen). reflexivity.
Qed.

End Synthesis.

Lemma len_replicate n c : Py.len (Py.replicate n c) = Z.of_N n.
Proof.
  unfold Py.replicate, Py.len.
  induction n as [|n IH] using N.peano_ind; [reflexivity|].
  rewrite N.iter_succ. cbn [String.length]. lia.
Qed.

(** ** Properties of the decision engine *)

Lemma check_then_synthesize_present polly bucket_name file_key text
    output_format language_code async_processing body w :
  s3_objects w !! (bucket_name, file_key) = Some body ->
  reachable 1 (s3_faults w) = true ->
  get_or_synthesize_speech polly bucket_name file_key text output_format
    language_code async_processing w
  = (Ok {[ "audio_key" := file_key ]},
     requested (S3HeadObject bucket_name file_key) w).
Proof.
  intros Hobj Hup. unfold get_or_synthesize_speech. rewrite try_reraise.
  now rewrite (bind_ok _ _ _ _ _
                 (check_s3_file_exists_present _ _ _ _ Hobj Hup)).
Qed.

Lemma synthesize_speech_unsupported polly bucket_name file_key text
    output_format language_code async_processing voices w :
  describe_voices polly None = Ok (Some voices) ->
  language_code ∉ LanguageCode <$> voices ->
  synthesize_speech polly bucket_name file_key text output_format
    language_code async_processing w
  = (Raise (ValueError
       (String.append "Language Code "
          (String.append language_code " not supported by Amazon Polly."))),
     logged (PollyDescribeVoices None) w).
Proof.
  intros Hlist Hnot. unfold synthesize_speech.
  unfold polly_request at 1. unfold bind at 1 2 3. unfold emit at 1.
  unfold lift at 1. rewrite Hlist. unfold ret at 1. cbv beta iota zeta.
  rewrite bool_decide_eq_false_2; [reflexivity|].
  now rewrite elem_of_list_to_set.
Qed.

(** C6: when the audio key is present in the store (and the store answers
    the existence check), [get_or_synthesize_speech] returns
    [{'audio_key': file_key}] after that single check: no call at all goes
    to the speech service, and nothing is written. *)
Theorem existing_audio_short_circuits
    (polly : polly_client)
    (bucket_name file_key text output_format language_code : string)
    (async_processing : bool) (body : list byte) (w : world) :
  s3_objects w !! (bucket_name, file_key) = Some body ->
  reachable 1 (s3_faults w) = true ->
  let run := get_or_synthesize_speech polly bucket_name file_key text
               output_format language_code async_processing w in
  run.1 = Ok {[ "audio_key" := file_key ]}
  /\ calls run.2 = calls w ++ [S3HeadObject bucket_name file_key]
  /\ count is_polly (calls run.2) = count is_polly (calls w)
  /\ s3_objects run.2 = s3_objects w.
Proof.
  intros Hobj Hup run. subst run.
  rewrite (check_then_synthesize_present _ _ _ _ _ _ _ _ _ Hobj Hup).
  cbn [fst snd requested calls s3_objects]. repeat split.
  rewrite count_snoc. cbn. lia.
Qed.

(** C7: when the language code is not among the languages the speech
    service lists, [synthesize_speech] raises the unsupported-language
    [ValueError], whatever the text and the mode asked for; the listing of
    the languages is the only call made: no voice is selected and no
    synthesis, synchronous or asynchronous, is attempted. *)
Theorem unsupported_language_rejected
    (polly : polly_client)
    (bucket_name file_key text output_format language_code : string)
    (async_processing : bool) (voices : list voice) (w : world) :
  describe_voices polly None = Ok (Some voices) ->
  language_code ∉ LanguageCode <$> voices ->
  let run := synthesize_speech polly bucket_name file_key text output_format
               language_code async_processing w in
  run.1 = Raise (ValueError
            (String.append "Language Code "
               (String.append language_code " not supported by Amazon Polly.")))
  /\ calls run.2 = calls w ++ [PollyDescribeVoices None]
  /\ count is_synthesis (calls run.2) = count is_synthesis (calls w)
  /\ s3_objects run.2 = s3_objects w.
Proof.
  intros Hlist Hnot run. subst run.
  rewrite (synthesize_speech_unsupported _ _ _ _ _ _ _ _ _ Hlist Hnot).
  cbn [fst snd logged calls s3_objects]. repeat split.
  rewrite count_snoc. cbn. lia.
Qed.

(** C1: with a language code the speech service lists and a default voice
    for it, [synthesize_speech]
    - on a text of length [SYNTHESIZE_MAX_LENGTH - 1] with
      [async_processing = false] calls the synchronous operation and starts
      no task; when the operation answers with audio and the store takes the
      write, the audio is stored at [file_key] and the result is
      [{'audio_key': file_key}];
    - on a text of length [SYNTHESIZE_MAX_LENGTH], or with
      [async_processing = true], the length being below
      [ASYNC_SYNTHESIZE_MAX_LENGTH], starts a task and does not call the
      synchronous operation; when the task is accepted the result is
      [{'task_id': task_id}];
    - on a text longer than [ASYNC_SYNTHESIZE_MAX_LENGTH] raises the
      text-too-long [ValueError] and attempts no synthesis. *)
Theorem synthesis_mode_selection
    (polly : polly_client)
    (bucket_name file_key output_format language_code : string)
    (voices : list voice) (default_voice : voice) (other_voices : list voice) :
  describe_voices polly None = Ok (Some voices) ->
  language_code ∈ LanguageCode <$> voices ->
  describe_voices polly (Some language_code)
    = Ok (Some (default_voice :: other_voices)) ->
  (forall (text engine : string) (engines : list string) (w : world),
      Py.len text = SYNTHESIZE_MAX_LENGTH - 1 ->
      SupportedEngines default_voice = engine :: engines ->
      let request := synchronous_request text output_format language_code
                       default_voice engine in
      let run := synthesize_speech polly bucket_name file_key text
                   output_format language_code false w in
      count is_synchronous (calls run.2) = S (count is_synchronous (calls w))
      /\ count is_asynchronous (calls run.2) = count is_asynchronous (calls w)
      /\ forall audio,
           polly_synthesize_speech polly request = Ok (Some audio) ->
           reachable 1 (s3_faults w) = true ->
           run.1 = Ok {[ "audio_key" := file_key ]}
           /\ s3_objects run.2 !! (bucket_name, file_key)
              = Some (accumulate audio []))
  /\ (forall (text : string) (async_processing : bool) (engine : string)
        (engines : list string) (w : world),
      Py.len text = SYNTHESIZE_MAX_LENGTH \/ async_processing = true ->
      Py.len text < ASYNC_SYNTHESIZE_MAX_LENGTH ->
      SupportedEngines default_voice = engine :: engines ->
      let request := asynchronous_request bucket_name file_key text
                       output_format language_code default_voice engine in
      let run := synthesize_speech polly bucket_name file_key text
                   output_format language_code async_processing w in
      count is_asynchronous (calls run.2) = S (count is_asynchronous (calls w))
      /\ count is_synchronous (calls run.2) = count is_synchronous (calls w)
      /\ forall task_id,
           start_speech_synthesis_task polly request = Ok task_id ->
           run.1 = Ok {[ "task_id" := task_id ]})
  /\ (forall (text : string) (async_processing : bool) (w : world),
      ASYNC_SYNTHESIZE_MAX_LENGTH < Py.len text ->
      let run := synthesize_speech polly bucket_name file_key text
                   output_format language_code async_processing w in
      run.1 = Raise (ValueError
                "Error: Text is too long for polly synthesis task.")
      /\ count is_synthesis (calls run.2) = count is_synthesis (calls w)).
Proof.
  intros Hlist Hlang Hvoice. split; [|split].
  - intros text engine engines w Hlen Hengine request run.
    assert (Hshort : Py.len text < SYNTHESIZE_MAX_LENGTH) by lia.
    destruct (synthesize_speech_synchronous_path polly bucket_name file_key
                output_format language_code voices default_voice other_voices
                Hlist Hvoice Hlang text engine engines w Hshort Hengine)
      as [Hsync Hasync].
    split; [exact Hsync|]. split; [exact Hasync|].
    intros audio Hanswer Hup. subst run.
    rewrite (synthesize_speech_synchronous polly bucket_name file_key
               output_format language_code voices default_voice other_voices
               Hlist Hvoice Hlang text engine engines audio w Hshort Hengine
               Hanswer Hup).
    cbn [fst snd stored s3_objects]. split; [reflexivity|].
    apply lookup_insert_eq.
  - intros text async_processing engine engines w Hmode Hlen Hengine request run.
    assert (Hmode' : SYNTHESIZE_MAX_LENGTH <= Py.len text
                     \/ async_processing = true)
      by (destruct Hmode; [left; lia|now right]).
    destruct (synthesize_speech_asynchronous_path polly bucket_name file_key
                output_format language_code voices default_voice other_voices
                Hlist Hvoice Hlang text async_processing engine engines w
                Hmode' Hlen Hengine)
      as (Hasync & Hsync & _).
    split; [exact Hasync|]. split; [exact Hsync|].
    intros task_id Hanswer. subst run.
    now rewrite (synthesize_speech_asynchronous polly bucket_name file_key
                   output_format language_code voices default_voice
                   other_voices Hlist Hvoice Hlang text async_processing
                   engine engines task_id w Hmode' Hlen Hengine Hanswer).
  - intros text async_processing w Hlen run. subst run.
    rewrite (synthesize_speech_too_long polly bucket_name file_key
               output_format language_code voices default_voice other_voices
               Hlist Hvoice Hlang text async_processing w) by lia.
    cbn [fst snd looked_up logged calls]. split; [reflexivity|].
    rewrite !count_snoc. cbn. lia.
Qed.

(** ** The properties at the sample inputs *)

Lemma synthesis_mode_selection_witness :
  describe_voices Sample.speech None = Ok (Some [Sample.joanna; Sample.lucia])
  /\ "en-US" ∈ LanguageCode <$> [Sample.joanna; Sample.lucia]
  /\ describe_voices Sample.speech (Some "en-US") = Ok (Some [Sample.joanna])
  /\ Py.len (Py.replicate 2999 "a") = SYNTHESIZE_MAX_LENGTH - 1
  /\ Py.len (Py.replicate 3000 "a") = SYNTHESIZE_MAX_LENGTH
  /\ ASYNC_SYNTHESIZE_MAX_LENGTH < Py.len (Py.replicate 180001 "a")
  /\ (synthesize_speech Sample.speech "media" Sample.audio_key
        (Py.replicate 2999 "a") "mp3" "en-US" false Sample.empty_world).1
     = Ok {[ "audio_key" := Sample.audio_key ]}
  /\ (synthesize_speech Sample.speech "media" Sample.audio_key
        (Py.replicate 3000 "a") "mp3" "en-US" false Sample.empty_world).1
     = Ok {[ "task_id" := "task-1" ]}
  /\ (synthesize_speech Sample.speech "media" Sample.audio_key
        (Py.replicate 50000 "a") "mp3" "en-US" true Sample.empty_world).1
     = Ok {[ "task_id" := "task-1" ]}
  /\ (synthesize_speech Sample.speech "media" Sample.audio_key
        (Py.replicate 180001 "a") "mp3" "en-US" false Sample.empty_world).1
     = Raise (ValueError "Error: Text is too long for polly synthesis task.").
Proof.
  assert (Hlist : describe_voices Sample.speech None
                  = Ok (Some [Sample.joanna; Sample.lucia])) by reflexivity.
  assert (Hlang : "en-US" ∈ LanguageCode <$> [Sample.joanna; Sample.lucia])
    by (apply list_elem_of_here).
  assert (Hvoice : describe_voices Sample.speech (Some "en-US")
                   = Ok (Some [Sample.joanna])) by reflexivity.
  assert (H2999 : Py.len (Py.replicate 2999 "a") = SYNTHESIZE_MAX_LENGTH - 1)
    by (rewrite len_replicate; reflexivity).
  assert (H3000 : Py.len (Py.replicate 3000 "a") = SYNTHESIZE_MAX_LENGTH)
    by (rewrite len_replicate; reflexivity).
  assert (Hhuge : ASYNC_SYNTHESIZE_MAX_LENGTH < Py.len (Py.replicate 180001 "a"))
    by (rewrite len_replicate; reflexivity).
  destruct (synthesis_mode_selection Sample.speech "media" Sample.audio_key
              "mp3" "en-US" [Sample.joanna; Sample.lucia] Sample.joanna []
              Hlist Hlang Hvoice)
    as (Hsync & Hasync & Hlong).
  repeat (split; [assumption|]).
  split; [|split; [|split]].
  - destruct (Hsync (Py.replicate 2999 "a") "neural" ["standard"]
                Sample.empty_world H2999 eq_refl)
      as (_ & _ & Hresult).
    apply (Hresult [["073"; "068"]%byte; ["051"]%byte]); reflexivity.
  - assert (Hbelow : Py.len (Py.replicate 3000 "a") < ASYNC_SYNTHESIZE_MAX_LENGTH)
      by (rewrite len_replicate; reflexivity).
    destruct (Hasync (Py.replicate 3000 "a") false "neural" ["standard"]
                Sample.empty_world (or_introl H3000) Hbelow eq_refl)
      as (_ & _ & Hresult).
    apply Hresult. reflexivity.
  - assert (Hbelow : Py.len (Py.replicate 50000 "a") < ASYNC_SYNTHESIZE_MAX_LENGTH)
      by (rewrite len_replicate; reflexivity).
    destruct (Hasync (Py.replicate 50000 "a") true "neural" ["standard"]
                Sample.empty_world (or_intror eq_refl) Hbelow eq_refl)
      as (_ & _ & Hresult).
    apply Hresult. reflexivity.
  - apply (Hlong (Py.replicate 180001 "a") false Sample.empty_world Hhuge).
Defined.

Lemma cache_hit_suppresses_generation_witness :
  let run := get_or_generate_bedrock_response string Sample.dumps Sample.loads
               "media" Sample.summary_key
               (fun _ : unit => Ok "a fresh summary") tt Sample.warm_world in
  s3_objects Sample.warm_world !! ("media", Sample.summary_key)
    = Some (list_byte_of_string "a summary")
  /\ Sample.loads (list_byte_of_string "a summary") = Ok "a summary"
  /\ reachable 3 (s3_faults Sample.warm_world) = true
  /\ run.1 = Ok ("a summary", true)
  /\ count is_generation (calls run.2)
     = count is_generation (calls Sample.warm_world)
  /\ s3_objects run.2 = s3_objects Sample.warm_world.
Proof.
  intros run.
  assert (Hobj : s3_objects Sample.warm_world !! ("media", Sample.summary_key)
                 = Some (list_byte_of_string "a summary"))
    by (apply lookup_insert_eq).
  assert (Hload : Sample.loads (list_byte_of_string "a summary")
                  = Ok "a summary") by reflexivity.
  assert (Hup : reachable 3 (s3_faults Sample.warm_world) = true)
    by reflexivity.
  repeat (split; [assumption|]).
  exact (cache_hit_suppresses_generation string Sample.dumps Sample.loads unit
           "media" Sample.summary_key (fun _ => Ok "a fresh summary") tt
           (list_byte_of_string "a summary") "a summary" Sample.warm_world
           Hobj Hload Hup).
Defined.

Lemma cache_miss_persists_once_witness :
  let run := get_or_generate_bedrock_response string Sample.dumps Sample.loads
               "media" Sample.summary_key
               (fun _ : unit => Ok "a fresh summary") tt Sample.empty_world in
  s3_objects Sample.empty_world !! ("media", Sample.summary_key) = None
  /\ reachable 2 (s3_faults Sample.empty_world) = true
  /\ run.1 = Ok ("a fresh summary", false)
  /\ count is_generation (calls run.2)
     = S (count is_generation (calls Sample.empty_world))
  /\ count is_write (calls run.2)
     = S (count is_write (calls Sample.empty_world))
  /\ calls run.2
     = calls Sample.empty_world
       ++ [S3HeadObject "media" Sample.summary_key; Generate;
           S3PutObject "media" Sample.summary_key
             (list_byte_of_string "a fresh summary")]
  /\ s3_objects run.2
     = <[("media", Sample.summary_key) := list_byte_of_string "a fresh summary"]>
         (s3_objects Sample.empty_world).
Proof.
  intros run.
  assert (Hobj : s3_objects Sample.empty_world !! ("media", Sample.summary_key)
                 = None) by (apply lookup_empty).
  assert (Hup : reachable 2 (s3_faults Sample.empty_world) = true)
    by reflexivity.
  repeat (split; [assumption|]).
  exact (cache_miss_persists_once string Sample.dumps Sample.loads unit
           "media" Sample.summary_key (fun _ => Ok "a fresh summary") tt
           "a fresh summary" (list_byte_of_string "a fresh summary")
           Sample.empty_world Hobj eq_refl eq_refl Hup).
Defined.

Lemma generation_failure_leaves_no_trace_witness :
  let run := get_or_generate_bedrock_response string Sample.dumps Sample.loads
               "media" Sample.summary_key
               (fun _ : unit => Raise (ClientError "ThrottlingException")) tt
               Sample.empty_world in
  s3_objects Sample.empty_world !! ("media", Sample.summary_key) = None
  /\ run.1 = Raise (ClientError "ThrottlingException")
  /\ count is_write (calls run.2) = count is_write (calls Sample.empty_world)
  /\ s3_objects run.2 = s3_objects Sample.empty_world
  /\ s3_objects run.2 !! ("media", Sample.summary_key) = None
  /\ forall (B : Type) (retry : B -> outcome string) (args' : B),
       count is_generation
         (calls (get_or_generate_bedrock_response string Sample.dumps
                   Sample.loads "media" Sample.summary_key retry args' run.2).2)
       = S (count is_generation (calls run.2)).
Proof.
  intros run.
  assert (Hobj : s3_objects Sample.empty_world !! ("media", Sample.summary_key)
                 = None) by (apply lookup_empty).
  split; [assumption|].
  exact (generation_failure_leaves_no_trace string Sample.dumps Sample.loads
           unit "media" Sample.summary_key
           (fun _ => Raise (ClientError "ThrottlingException")) tt
           (ClientError "ThrottlingException") Sample.empty_world
           Hobj eq_refl).
Defined.

Lemma existing_audio_short_circuits_witness :
  let run := get_or_synthesize_speech Sample.speech "media" Sample.audio_key
               "a summary" "mp3" "en-US" true Sample.warm_world in
  s3_objects Sample.warm_world !! ("media", Sample.audio_key)
    = Some ["073"; "068"; "051"]%byte
  /\ reachable 1 (s3_faults Sample.warm_world) = true
  /\ run.1 = Ok {[ "audio_key" := Sample.audio_key ]}
  /\ calls run.2
     = calls Sample.warm_world ++ [S3HeadObject "media" Sample.audio_key]
  /\ count is_polly (calls run.2) = count is_polly (calls Sample.warm_world)
  /\ s3_objects run.2 = s3_objects Sample.warm_world.
Proof.
  intros run.
  assert (Hobj : s3_objects Sample.warm_world !! ("media", Sample.audio_key)
                 = Some ["073"; "068"; "051"]%byte).
  { cbn [Sample.warm_world s3_objects].
    rewrite lookup_insert_ne by discriminate. apply lookup_insert_eq. }
  assert (Hup : reachable 1 (s3_faults Sample.warm_world) = true)
    by reflexivity.
  repeat (split; [assumption|]).
  exact (existing_audio_short_circuits Sample.speech "media" Sample.audio_key
           "a summary" "mp3" "en-US" true ["073"; "068"; "051"]%byte
           Sample.warm_world Hobj Hup).
Defined.

Lemma unsupported_language_rejected_witness :
  let run := synthesize_speech Sample.speech "media" Sample.audio_key
               (Py.replicate 200000 "a") "mp3" "tlh" false
               Sample.empty_world in
  describe_voices Sample.speech None = Ok (Some [Sample.joanna; Sample.lucia])
  /\ ("tlh" ∉ LanguageCode <$> [Sample.joanna; Sample.lucia])
  /\ run.1 = Raise (ValueError
               "Language Code tlh not supported by Amazon Polly.")
  /\ calls run.2 = calls Sample.empty_world ++ [PollyDescribeVoices None]
  /\ count is_synthesis (calls run.2)
     = count is_synthesis (calls Sample.empty_world)
  /\ s3_objects run.2 = s3_objects Sample.empty_world.
Proof.
  intros run.
  assert (Hlist : describe_voices Sample.speech None
                  = Ok (Some [Sample.joanna; Sample.lucia])) by reflexivity.
  assert (Hnot : "tlh" ∉ LanguageCode <$> [Sample.joanna; Sample.lucia]).
  { intros H. cbn in H.
    apply elem_of_cons in H as [H|H]; [discriminate|].
    apply elem_of_cons in H as [H|H]; [discriminate|].
    now apply elem_of_nil in H. }
  repeat (split; [assumption|]).
  exact (unsupported_language_rejected Sample.speech "media" Sample.audio_key
           (Py.replicate 200000 "a") "mp3" "tlh" false
           [Sample.joanna; Sample.lucia] Sample.empty_world Hlist Hnot).
Defined.

(** * More of the code *)

(** ** Searching and cutting strings *)

Section StrFacts.
Import Py.

Lemma append_inj_l s t u : String.append s t = String.append s u -> t = u.
Proof.
  induction s as [|a s IH]; [trivial|].
  rewrite !append_cons. intros H. injection H as H. auto.
Qed.

Lemma append_inj_length s1 s2 t1 t2 :
  String.length s1 = String.length s2 ->
  String.append s1 t1 = String.append s2 t2 -> s1 = s2 /\ t1 = t2.
Proof.
  revert s2. induction s1 as [|a s1 IH]; intros [|b s2] Hlen; try discriminate.
  - auto.
  - rewrite !append_cons. intros H. injection H as -> H.
    cbn [String.length] in Hlen.
    destruct (IH s2 ltac:(lia) H) as [-> ->]. auto.
Qed.

Lemma append_inj_r s1 s2 t : String.append s1 t = String.append s2 t -> s1 = s2.
Proof.
  intros H. refine (proj1 (append_inj_length s1 s2 t t _ H)).
  apply (f_equal String.length) in H. rewrite !length_append in H. lia.
Qed.

Lemma prefix_append s t : String.prefix s (String.append s t) = true.
Proof.
  induction s as [|a s IH]; [now destruct t|].
  rewrite append_cons. cbn [String.prefix].
  now destruct (ascii_dec a a).
Qed.

Lemma find_here s sub : String.prefix sub s = true -> find s sub = 0.
Proof. intros H. destruct s; cbn [find]; now rewrite H. Qed.

(** The first place where a string that starts with [c] can occur is after
    every stretch without [c]. *)
Lemma find_skip s t c u :
  contains s c = false ->
  String.prefix (String c u) t = true ->
  find (String.append s t) (String c u) = len s.
Proof.
  intros Hs Ht. induction s as [|a s IH].
  - now apply find_here.
  - cbn [contains] in Hs. apply orb_false_iff in Hs as [Hac Hs].
    apply Ascii.eqb_neq in Hac.
    rewrite append_cons. cbn [find String.prefix].
    destruct (ascii_dec c a) as [->|_]; [congruence|].
    rewrite (IH Hs). pose proof (len_nonneg s).
    destruct (Z.leb_spec 0 (len s)); [|lia].
    unfold len. cbn [String.length]. lia.
Qed.

Lemma find_absent s c u : contains s c = false -> find s (String c u) = -1.
Proof.
  induction s as [|a s IH]; [reflexivity|].
  cbn [contains]. intros [Hac Hs]%orb_false_iff. apply Ascii.eqb_neq in Hac.
  cbn [find String.prefix].
  destruct (ascii_dec c a) as [->|_]; [congruence|].
  now rewrite (IH Hs).
Qed.

Lemma str_drop_append s t : str_drop (String.length s) (String.append s t) = t.
Proof. induction s as [|a s IH]; [reflexivity|]. now rewrite append_cons. Qed.

Lemma str_take_append s t : str_take (String.length s) (String.append s t) = s.
Proof.
  induction s as [|a s IH]; [now destruct t|].
  rewrite append_cons. cbn [String.length str_take]. now rewrite IH.
Qed.

Lemma slice_bound_at s t :
  slice_bound (len (String.append s t)) (len s) = String.length s.
Proof.
  unfold slice_bound. rewrite len_append.
  pose proof (len_nonneg s). pose proof (len_nonneg t).
  destruct (Z.ltb_spec (len s) 0); [lia|]. unfold len in *. lia.
Qed.

Lemma slice_from_append s t i :
  i = len s -> slice_from (String.append s t) i = t.
Proof.
  intros ->. unfold slice_from. rewrite slice_bound_at. apply str_drop_append.
Qed.

Lemma slice_to_append s t i :
  i = len s -> slice_to (String.append s t) i = s.
Proof.
  intros ->. unfold slice_to. rewrite slice_bound_at. apply str_take_append.
Qed.

Lemma find_from_append s t sub :
  0 <= find t sub ->
  Str.find_from (String.append s t) sub (len s) = find t sub + len s.
Proof.
  intros Hfound. unfold Str.find_from.
  rewrite len_append at 1. pose proof (len_nonneg t).
  destruct (Z.ltb_spec (len s + len t) (len s)); [lia|].
  rewrite slice_bound_at, str_drop_append.
  destruct (Z.leb_spec 0 (find t sub)); [reflexivity|lia].
Qed.

Lemma find_from_append_absent s t sub :
  find t sub = -1 ->
  Str.find_from (String.append s t) sub (len s) = -1.
Proof.
  intros Hnone. unfold Str.find_from.
  rewrite len_append at 1. pose proof (len_nonneg t).
  destruct (Z.ltb_spec (len s + len t) (len s)); [lia|].
  now rewrite slice_bound_at, str_drop_append, Hnone.
Qed.

Lemma split_once_found s t c :
  contains s c = false ->
  Str.split_once (String.append s (String c t)) c = [s; t].
Proof.
  intros Hs. unfold Str.split_once.
  rewrite (find_skip s (String c t) c EmptyString Hs
             (prefix_append (String c EmptyString) t)).
  pose proof (len_nonneg s).
  destruct (Z.leb_spec 0 (len s)); [|lia].
  rewrite slice_to_append by reflexivity.
  change (String c t) with (String.append (String c EmptyString) t).
  rewrite <- append_assoc.
  rewrite slice_from_append; [reflexivity|].
  rewrite len_append. reflexivity.
Qed.

Lemma split_once_absent s c : contains s c = false -> Str.split_once s c = [s].
Proof.
  intros Hs. unfold Str.split_once. now rewrite (find_absent s c EmptyString Hs).
Qed.

End StrFacts.

(** ** The key out of a task's output URL *)

Section Urls.
Import Py.

Variables scheme host : string.
Hypothesis scheme_plain : contains scheme "/" = false.
Hypothesis host_plain : contains host "/" = false.

Lemma find_authority rest :
  find (String.append scheme (String.append "//" rest)) "//" = len scheme.
Proof. apply find_skip; [exact scheme_plain|apply prefix_append]. Qed.

(** Where the path of [scheme//host/path] starts. *)
Lemma path_start_found path :
  Str.find_from
    (String.append scheme (String.append "//"
       (String.append host (String.append "/" path))))
    "/" (len scheme + 2)
  = len scheme + 2 + len host.
Proof.
  rewrite <- (append_assoc scheme "//").
  replace (len scheme + 2) with (len (String.append scheme "//"))
    by (rewrite len_append; reflexivity).
  rewrite find_from_append.
  - rewrite (find_skip host _ "/" EmptyString host_plain (prefix_append "/" path)).
    lia.
  - rewrite (find_skip host _ "/" EmptyString host_plain (prefix_append "/" path)).
    apply len_nonneg.
Qed.

Lemma extract_file_key_from_url_path bucket file_key :
  contains bucket "/" = false ->
  extract_file_key_from_url
    (String.append scheme (String.append "//"
       (String.append host (String.append "/"
          (String.append bucket (String.append "/" file_key))))))
  = Ok file_key.
Proof.
  intros Hbucket. unfold extract_file_key_from_url.
  rewrite find_authority, path_start_found.
  pose proof (len_nonneg scheme). pose proof (len_nonneg host).
  destruct (Z.eqb_spec (len scheme + 2 + len host) (-1)); [lia|].
  rewrite <- (append_assoc host "/"), <- (append_assoc "//"),
    <- (append_assoc scheme).
  rewrite slice_from_append
    by (rewrite !len_append; change (len "//") with 2; change (len "/") with 1; lia).
  change (String.append "/" file_key) with (String "/" file_key).
  now rewrite (split_once_found bucket file_key "/" Hbucket).
Qed.

Lemma extract_file_key_from_url_no_path :
  extract_file_key_from_url (String.append scheme (String.append "//" host))
  = Raise (ValueError "Invalid S3 URL: No path found in the URL.").
Proof.
  unfold extract_file_key_from_url. rewrite find_authority.
  rewrite <- (append_assoc scheme "//").
  replace (len scheme + 2) with (len (String.append scheme "//"))
    by (rewrite len_append; reflexivity).
  rewrite find_from_append_absent; [reflexivity|].
  apply find_absent, host_plain.
Qed.

Lemma extract_file_key_from_url_no_key bucket :
  contains bucket "/" = false ->
  extract_file_key_from_url
    (String.append scheme (String.append "//"
       (String.append host (String.append "/" bucket))))
  = Raise (ValueError "Invalid S3 URL: Could not find the file key.").
Proof.
  intros Hbucket. unfold extract_file_key_from_url.
  rewrite find_authority, path_start_found.
  pose proof (len_nonneg scheme). pose proof (len_nonneg host).
  destruct (Z.eqb_spec (len scheme + 2 + len host) (-1)); [lia|].
  rewrite <- (append_assoc host "/"), <- (append_assoc "//"),
    <- (append_assoc scheme).
  rewrite slice_from_append
    by (rewrite !len_append; change (len "//") with 2; change (len "/") with 1; lia).
  now rewrite (split_once_absent bucket "/" Hbucket).
Qed.

End Urls.

(** X1: for a URL [scheme//host/bucket/key] whose scheme, host and bucket
    have no slash, [extract_file_key_from_url] returns the key, slashes of
    the key included. *)
Theorem extract_file_key_from_url_round_trip
    (scheme host bucket file_key : string) :
  Py.contains scheme "/" = false ->
  Py.contains host "/" = false ->
  Py.contains bucket "/" = false ->
  extract_file_key_from_url
    (String.append scheme (String.append "//"
       (String.append host (String.append "/"
          (String.append bucket (String.append "/" file_key))))))
  = Ok file_key.
Proof.
  intros Hscheme Hhost Hbucket.
  now apply extract_file_key_from_url_path.
Qed.

Lemma extract_file_key_from_url_round_trip_witness :
  Py.contains "https:" "/" = false
  /\ Py.contains "s3.us-west-2.amazonaws.com" "/" = false
  /\ Py.contains "my-bucket" "/" = false
  /\ extract_file_key_from_url
       (String.append "https:" (String.append "//"
          (String.append "s3.us-west-2.amazonaws.com" (String.append "/"
             (String.append "my-bucket"
                (String.append "/" "resource/audios/2024-09-04/output.mp3"))))))
     = Ok "resource/audios/2024-09-04/output.mp3".
Proof.
  repeat (split; [reflexivity|]).
  apply (extract_file_key_from_url_round_trip "https:"
           "s3.us-west-2.amazonaws.com" "my-bucket"
           "resource/audios/2024-09-04/output.mp3"); reflexivity.
Defined.

(** X2: a URL that stops after the host, or after the bucket, is rejected:
    [scheme//host] raises the no-path [ValueError] and [scheme//host/bucket]
    raises the no-file-key [ValueError]. *)
Theorem extract_file_key_from_url_rejects_short_urls
    (scheme host bucket : string) :
  Py.contains scheme "/" = false ->
  Py.contains host "/" = false ->
  Py.contains bucket "/" = false ->
  extract_file_key_from_url (String.append scheme (String.append "//" host))
    = Raise (ValueError "Invalid S3 URL: No path found in the URL.")
  /\ extract_file_key_from_url
       (String.append scheme (String.append "//"
          (String.append host (String.append "/" bucket))))
     = Raise (ValueError "Invalid S3 URL: Could not find the file key.").
Proof.
  intros Hscheme Hhost Hbucket. split.
  - now apply extract_file_key_from_url_no_path.
  - now apply extract_file_key_from_url_no_key.
Qed.

Lemma extract_file_key_from_url_rejects_short_urls_witness :
  Py.contains "https:" "/" = false
  /\ Py.contains "s3.amazonaws.com" "/" = false
  /\ Py.contains "my-bucket" "/" = false
  /\ extract_file_key_from_url
       (String.append "https:" (String.append "//" "s3.amazonaws.com"))
     = Raise (ValueError "Invalid S3 URL: No path found in the URL.")
  /\ extract_file_key_from_url
       (String.append "https:" (String.append "//"
          (String.append "s3.amazonaws.com" (String.append "/" "my-bucket"))))
     = Raise (ValueError "Invalid S3 URL: Could not find the file key.").
Proof.
  repeat (split; [reflexivity|]).
  apply (extract_file_key_from_url_rejects_short_urls "https:"
           "s3.amazonaws.com" "my-bucket"); reflexivity.
Defined.

(** ** Storage keys *)

Section Keys.

Variables ts transcription_job_name folder_path identity_id output_format : string.

Local Abbreviation key := (get_file_key ts transcription_job_name folder_path
                             identity_id output_format).

Lemma truthy_nonempty s : Str.truthy (Some s) = true -> s <> EmptyString.
Proof. destruct s; [discriminate|discriminate]. Qed.

Lemma get_file_key_language_inj model_id timestamp language language' :
  key model_id (Some language) timestamp
    = key model_id (Some language') timestamp ->
  language = language'.
Proof.
  unfold get_file_key.
  destruct language as [|a l], language' as [|a' l']; [reflexivity| | |].
  - intros H. exfalso. apply (f_equal String.length) in H. revert H.
    destruct model_id as [[|m0 m]|], timestamp;
      cbn [Str.truthy Str.render andb]; rewrite !length_append; cbn; lia.
  - intros H. exfalso. apply (f_equal String.length) in H. revert H.
    destruct model_id as [[|m0 m]|], timestamp;
      cbn [Str.truthy Str.render andb]; rewrite !length_append; cbn; lia.
  - destruct model_id as [[|m0 m]|], timestamp;
      cbn [Str.truthy Str.render andb]; intros H;
      repeat apply append_inj_l in H; now apply append_inj_r in H.
Qed.

Lemma get_file_key_model_inj language model_id model_id' :
  key (Some model_id) language None = key (Some model_id') language None ->
  model_id = model_id'.
Proof.
  unfold get_file_key.
  destruct model_id as [|a m], model_id' as [|a' m']; [reflexivity| | |].
  - intros H. exfalso. apply (f_equal String.length) in H. revert H.
    destruct language as [[|l0 l]|];
      cbn [Str.truthy Str.render andb]; rewrite !length_append; cbn; lia.
  - intros H. exfalso. apply (f_equal String.length) in H. revert H.
    destruct language as [[|l0 l]|];
      cbn [Str.truthy Str.render andb]; rewrite !length_append; cbn; lia.
  - destruct language as [[|l0 l]|];
      cbn [Str.truthy Str.render andb]; intros H;
      repeat apply append_inj_l in H; now apply append_inj_r in H.
Qed.

End Keys.

(** X3: when only the language differs between two requests (same job,
    folder, identity, format, model and timestamp argument, same clock),
    [get_file_key] gives them different keys; and likewise when only the
    model differs (no timestamp). *)
Theorem get_file_key_separates_languages_and_models
    (ts job folder identity_id output_format : string)
    (model_id language timestamp : option string) (l l' m m' : string) :
  (get_file_key ts job folder identity_id output_format model_id (Some l) timestamp
     = get_file_key ts job folder identity_id output_format model_id (Some l') timestamp
   -> l = l')
  /\ (get_file_key ts job folder identity_id output_format (Some m) language None
        = get_file_key ts job folder identity_id output_format (Some m') language None
      -> m = m').
Proof.
  split.
  - apply get_file_key_language_inj.
  - apply get_file_key_model_inj.
Qed.

Lemma get_file_key_separates_languages_and_models_witness :
  "en" = "en" /\ "modelX" = "modelX".
Proof.
  destruct (get_file_key_separates_languages_and_models "0.0" "jobA"
              "summaries/" "u1" "json" (Some "modelX") (Some "en") None
              "en" "en" "modelX" "modelX") as [Hl Hm].
  split; [apply Hl|apply Hm]; reflexivity.
Defined.

(** X4: the key does not keep the model and the language apart: a model
    [m-x] with language [l] and a model [m] with language [x-l] get the
    same key, and so do a request with the model [x] alone and one with
    the language [x] alone. *)
Theorem get_file_key_collides
    (ts job folder identity_id output_format m x l : string) :
  Str.truthy (Some m) = true ->
  Str.truthy (Some l) = true ->
  get_file_key ts job folder identity_id output_format
    (Some (String.append m (String.append "-" x))) (Some l) None
  = get_file_key ts job folder identity_id output_format
      (Some m) (Some (String.append x (String.append "-" l))) None
  /\ get_file_key ts job folder identity_id output_format (Some x) None None
     = get_file_key ts job folder identity_id output_format None (Some x) None.
Proof.
  intros Hm Hl. split.
  - unfold get_file_key.
    assert (Hmx : Str.truthy (Some (String.append m (String.append "-" x))) = true)
      by (destruct m; [discriminate|reflexivity]).
    assert (Hxl : Str.truthy (Some (String.append x (String.append "-" l))) = true)
      by (destruct x; reflexivity).
    rewrite Hm, Hl, Hmx, Hxl. cbn [andb Str.render].
    now rewrite !append_assoc.
  - unfold get_file_key. now destruct x.
Qed.

Lemma get_file_key_collides_witness :
  Str.truthy (Some "modelX") = true
  /\ Str.truthy (Some "US") = true
  /\ get_file_key "0.0" "jobA" "summaries/" "u1" "json"
       (Some (String.append "modelX" (String.append "-" "en"))) (Some "US") None
     = get_file_key "0.0" "jobA" "summaries/" "u1" "json"
         (Some "modelX") (Some (String.append "en" (String.append "-" "US"))) None
  /\ get_file_key "0.0" "jobA" "summaries/" "u1" "json" (Some "en") None None
     = get_file_key "0.0" "jobA" "summaries/" "u1" "json" None (Some "en") None.
Proof.
  repeat (split; [reflexivity|]).
  apply (get_file_key_collides "0.0" "jobA" "summaries/" "u1" "json"
           "modelX" "en" "US"); reflexivity.
Defined.

(** ** More on the deterministic identifier *)

Section HashFacts.
Import Py.

Lemma find_le s sub : find s sub <= len s.
Proof.
  unfold len. induction s as [|a s IH]; cbn [find String.length].
  - destruct (String.prefix sub EmptyString); lia.
  - destruct (String.prefix sub (String a s)); [lia|].
    destruct (Z.leb_spec 0 (find s sub)); lia.
Qed.

Lemma find_points_at s sub :
  0 <= find s sub ->
  String.prefix sub (str_drop (Z.to_nat (find s sub)) s) = true.
Proof.
  induction s as [|a s IH]; cbn [find].
  - destruct (String.prefix sub EmptyString) eqn:Hp; [intros _; exact Hp|lia].
  - destruct (String.prefix sub (String a s)) eqn:Hp; [intros _; exact Hp|].
    destruct (Z.leb_spec 0 (find s sub)) as [Hr|Hr]; [|lia].
    intros _. replace (Z.to_nat (find s sub + 1)) with (S (Z.to_nat (find s sub)))
      by lia.
    cbn [str_drop]. now apply IH.
Qed.

Lemma slice_from_zero s : slice_from s 0 = s.
Proof.
  unfold slice_from, slice_bound. pose proof (len_nonneg s).
  destruct (Z.ltb_spec 0 0); [lia|].
  now replace (Z.to_nat (Z.min 0 (len s))) with O by lia.
Qed.

Lemma slice_from_find s sub :
  0 <= find s sub ->
  slice_from s (find s sub) = str_drop (Z.to_nat (find s sub)) s.
Proof.
  intros Hfound. unfold slice_from, slice_bound. pose proof (find_le s sub).
  destruct (Z.ltb_spec (find s sub) 0); [lia|].
  now rewrite Z.min_l by lia.
Qed.

(** Cutting at the marker is idempotent. *)
Lemma deterministic_hash_truncation sha256 file_key :
  0 <= find file_key "videos" ->
  deterministic_hash sha256 (slice_from file_key (find file_key "videos"))
  = deterministic_hash sha256 file_key.
Proof.
  intros Hfound. unfold deterministic_hash.
  assert (Hhere : find (slice_from file_key (find file_key "videos")) "videos" = 0).
  { apply find_here. rewrite slice_from_find by exact Hfound.
    now apply find_points_at. }
  rewrite Hhere, slice_from_zero.
  destruct (Z.eqb_spec (find file_key "videos") (-1)); [lia|].
  reflexivity.
Qed.

(** *** The shape of the encoded digest *)

Lemma b64_digit_safe n :
  (n < 64)%N -> key_safe (ascii_of_byte (Codec.b64_digit n)) = true.
Proof.
  intros Hn. unfold Codec.b64_digit.
  assert (Hall : forallb (fun b => key_safe (ascii_of_byte b))
                   Codec.URLSAFE_ALPHABET = true) by (vm_compute; reflexivity).
  rewrite List.forallb_forall in Hall. apply Hall.
  apply List.nth_In. change (length Codec.URLSAFE_ALPHABET) with 64%nat. lia.
Qed.

Lemma byte_bound (b : byte) : (Byte.to_N b < 256)%N.
Proof. pose proof (Byte.to_N_bounded b). lia. Qed.

Lemma all_append p s t : all p (String.append s t) = all p s && all p t.
Proof.
  induction s as [|a s IH]; [reflexivity|].
  rewrite append_cons. cbn [all]. now rewrite IH, andb_assoc.
Qed.

Lemma all_impl (p q : ascii -> bool) s :
  (forall c, p c = true -> q c = true) -> all p s = true -> all q s = true.
Proof.
  intros Hpq. induction s as [|a s IH]; [reflexivity|].
  cbn [all]. intros [Ha Hs]%andb_true_iff.
  now rewrite (Hpq a Ha), (IH Hs).
Qed.

Lemma keep_all p s : all p s = true -> keep p s = s.
Proof.
  induction s as [|a s IH]; [reflexivity|].
  cbn [all keep]. intros [Ha Hs]%andb_true_iff. now rewrite Ha, (IH Hs).
Qed.

Lemma rstrip_by_none p s :
  all (fun c => negb (p c)) s = true -> rstrip_by p s = s.
Proof.
  induction s as [|a s IH]; [reflexivity|].
  cbn [all rstrip_by]. intros [Ha Hs]%andb_true_iff. rewrite (IH Hs).
  apply negb_true_iff in Ha. rewrite Ha. now destruct s.
Qed.

Lemma rstrip_by_whole p s : all p s = true -> rstrip_by p s = EmptyString.
Proof.
  induction s as [|a s IH]; [reflexivity|].
  cbn [all rstrip_by]. intros [Ha Hs]%andb_true_iff.
  now rewrite (IH Hs), Ha.
Qed.

Lemma rstrip_by_append p s t :
  all p t = true -> rstrip_by p (String.append s t) = rstrip_by p s.
Proof.
  intros Ht. induction s as [|a s IH].
  - now apply rstrip_by_whole.
  - rewrite append_cons. cbn [rstrip_by]. now rewrite IH.
Qed.

Lemma urlsafe_b64encode_shape_upto n :
  forall bs, (length bs <= n)%nat ->
             encoded (length bs) (Codec.decode (Codec.urlsafe_b64encode bs)).
Proof.
  induction n as [|n IH]; intros bs Hlen.
  - destruct bs; [|cbn in Hlen; lia]. exists EmptyString, EmptyString. now cbn.
  - destruct bs as [|a [|b [|c rest]]].
    + exists EmptyString, EmptyString. now cbn.
    + pose proof (byte_bound a).
      eexists (String _ (String _ EmptyString)), "=="%string.
      cbn [Codec.urlsafe_b64encode Codec.decode]. split; [reflexivity|].
      split; [|split; reflexivity].
      cbn [all]. rewrite !b64_digit_safe; [reflexivity| |].
      * assert (Byte.to_N a mod 4 < 4)%N by (apply N.mod_lt; lia). lia.
      * apply N.Div0.div_lt_upper_bound. lia.
    + pose proof (byte_bound a). pose proof (byte_bound b).
      eexists (String _ (String _ (String _ EmptyString))), "="%string.
      cbn [Codec.urlsafe_b64encode Codec.decode]. split; [reflexivity|].
      split; [|split; reflexivity].
      assert (Byte.to_N a mod 4 < 4)%N by (apply N.mod_lt; lia).
      assert (Byte.to_N b mod 16 < 16)%N by (apply N.mod_lt; lia).
      assert (Byte.to_N b / 16 < 16)%N by (apply N.Div0.div_lt_upper_bound; lia).
      cbn [all]. rewrite !b64_digit_safe; [reflexivity|lia|lia|].
      apply N.Div0.div_lt_upper_bound. lia.
    + pose proof (byte_bound a). pose proof (byte_bound b).
      pose proof (byte_bound c).
      destruct (IH rest) as (body & pad & Hout & Hsafe & Hbody & Hpad).
      { cbn [length] in Hlen. lia. }
      cbn [Codec.urlsafe_b64encode Codec.decode]. rewrite Hout.
      eexists (String _ (String _ (String _ (String _ body)))), pad.
      split; [reflexivity|]. split; [|split; [|exact Hpad]].
      * assert (Byte.to_N a mod 4 < 4)%N by (apply N.mod_lt; lia).
        assert (Byte.to_N b mod 16 < 16)%N by (apply N.mod_lt; lia).
        assert (Byte.to_N b / 16 < 16)%N
          by (apply N.Div0.div_lt_upper_bound; lia).
        assert (Byte.to_N c / 64 < 4)%N
          by (apply N.Div0.div_lt_upper_bound; lia).
        cbn [all]. rewrite Hsafe, !b64_digit_safe; [reflexivity| | | |].
        -- apply N.mod_lt. lia.
        -- lia.
        -- lia.
        -- apply N.Div0.div_lt_upper_bound. lia.
      * cbn [String.length length]. rewrite Hbody.
        replace (4 * S (S (S (length rest))) + 2)%nat
          with (4 * length rest + 2 + 4 * 3)%nat by lia.
        rewrite Nat.div_add by lia. lia.
Qed.

Lemma urlsafe_b64encode_shape bs :
  encoded (length bs) (Codec.decode (Codec.urlsafe_b64encode bs)).
Proof. now apply (urlsafe_b64encode_shape_upto (length bs)). Qed.

Lemma key_safe_not_padding c : key_safe c = true -> negb (Ascii.eqb "=" c) = true.
Proof. destruct c as [[] [] [] [] [] [] [] []]; vm_compute; congruence. Qed.

(** The filter of [deterministic_hash] removes the padding and nothing
    else. *)
Lemma deterministic_hash_length sha256 file_key :
  exists data,
    String.length (deterministic_hash sha256 file_key)
    = ((4 * length (sha256 data) + 2) / 3)%nat.
Proof.
  unfold deterministic_hash.
  set (data := Codec.encode _). exists data.
  destruct (urlsafe_b64encode_shape (sha256 data))
    as (body & pad & Hout & Hsafe & Hbody & Hpad).
  rewrite Hout. unfold rstrip. rewrite (rstrip_by_append _ _ _ Hpad).
  rewrite rstrip_by_none
    by (eapply all_impl; [apply key_safe_not_padding|exact Hsafe]).
  rewrite keep_all
    by (eapply all_impl; [apply key_safe_allowed_chars|exact Hsafe]).
  exact Hbody.
Qed.

End HashFacts.

(** X5: two references that agree from their first [videos] on get the
    same identifier, whatever comes before it. *)
Theorem deterministic_hash_ignores_prefix
    (sha256 : list byte -> list byte) (file_key file_key' : string) :
  0 <= Py.find file_key "videos" ->
  0 <= Py.find file_key' "videos" ->
  Py.slice_from file_key (Py.find file_key "videos")
    = Py.slice_from file_key' (Py.find file_key' "videos") ->
  deterministic_hash sha256 file_key = deterministic_hash sha256 file_key'.
Proof.
  intros Hfound Hfound' Hsame.
  rewrite <- (deterministic_hash_truncation sha256 file_key Hfound).
  rewrite <- (deterministic_hash_truncation sha256 file_key' Hfound').
  now rewrite Hsame.
Qed.

Lemma deterministic_hash_ignores_prefix_witness :
  0 <= Py.find "s3://bucket/videos/lecture1.mp4" "videos"
  /\ 0 <= Py.find "public/u1/videos/lecture1.mp4" "videos"
  /\ Py.slice_from "s3://bucket/videos/lecture1.mp4"
       (Py.find "s3://bucket/videos/lecture1.mp4" "videos")
     = Py.slice_from "public/u1/videos/lecture1.mp4"
         (Py.find "public/u1/videos/lecture1.mp4" "videos")
  /\ deterministic_hash Fixture.zero_digest "s3://bucket/videos/lecture1.mp4"
     = deterministic_hash Fixture.zero_digest "public/u1/videos/lecture1.mp4".
Proof.
  split; [vm_compute; discriminate|]. split; [vm_compute; discriminate|].
  split; [reflexivity|].
  apply (deterministic_hash_ignores_prefix Fixture.zero_digest
           "s3://bucket/videos/lecture1.mp4" "public/u1/videos/lecture1.mp4").
  - vm_compute; discriminate.
  - vm_compute; discriminate.
  - reflexivity.
Defined.

(** X6: with a digest function of 32-byte digests, as SHA-256 is, the
    identifier has exactly 43 characters for every input: the filter
    removes the one padding character and no digit of the encoding. *)
Theorem deterministic_hash_has_43_characters
    (sha256 : list byte -> list byte) (file_key : string) :
  (forall data, length (sha256 data) = 32%nat) ->
  Py.len (deterministic_hash sha256 file_key) = 43.
Proof.
  intros Hdigest.
  destruct (deterministic_hash_length sha256 file_key) as [data Hlen].
  unfold Py.len. rewrite Hlen, Hdigest. reflexivity.
Qed.

Lemma deterministic_hash_has_43_characters_witness :
  (forall data, length (Fixture.zero_digest data) = 32%nat)
  /\ Py.len (deterministic_hash Fixture.zero_digest "videos/lecture1.mp4") = 43.
Proof.
  split; [intros data; reflexivity|].
  apply (deterministic_hash_has_43_characters Fixture.zero_digest).
  intros data. reflexivity.
Defined.

(** ** More on the decision engine *)

(** Unfold a run of the layer down to the answers of the services. *)
Ltac run_effects :=
  cbv beta iota zeta delta
    [synthesize_speech get_or_synthesize_speech get_default_voice_for_language
     process_audio_stream_and_upload_to_s3 polly_request check_s3_file_exists
     get_json_from_s3 write_json_to_s3 call_generation call_translation
     get_or_generate_bedrock_response get_or_generate_translation
     move_s3_object copy delete_object s3_admin_request
     head_object get_object put_object
     read_object s3_request try_except log_and_reraise bind ret raise lift emit
     fst snd].

Ltac world_fields :=
  cbn [fst snd logged requested stored advanced removed s3_objects s3_faults
       calls tail].

(** Case analysis on every answer the run depends on. *)
Ltac split_case :=
  match goal with
  | |- context [match ?x with _ => _ end] =>
      lazymatch x with
      | context [match _ with _ => _ end] => fail
      | _ => destruct x eqn:?
      end
  | |- context [if ?x then _ else _] =>
      lazymatch x with
      | context [if _ then _ else _] => fail
      | context [match _ with _ => _ end] => fail
      | _ => destruct x eqn:?
      end
  end.

Ltac split_cases := world_fields; repeat (split_case; world_fields).

(** X7: every run of [synthesize_speech] ends in one of three ways: it
    raises, and the store is as it was; it returns [{'audio_key': file_key}],
    which only happens for a text below [SYNTHESIZE_MAX_LENGTH] not forced to
    the asynchronous mode, and the store differs by the object at [file_key]
    alone; or it returns [{'task_id': ...}] for a text below
    [ASYNC_SYNTHESIZE_MAX_LENGTH], and the store is as it was. *)
Theorem synthesize_speech_outcomes
    (polly : polly_client)
    (bucket_name file_key text output_format language_code : string)
    (async_processing : bool) (w : world) :
  let run := synthesize_speech polly bucket_name file_key text output_format
               language_code async_processing w in
  match run.1 with
  | Raise _ => s3_objects run.2 = s3_objects w
  | Ok d =>
      (d = {[ "audio_key" := file_key ]}
       /\ async_processing = false
       /\ Py.len text < SYNTHESIZE_MAX_LENGTH
       /\ exists body,
            s3_objects run.2
            = <[(bucket_name, file_key) := body]> (s3_objects w))
      \/ (exists task_id,
            d = {[ "task_id" := task_id ]}
            /\ Py.len text < ASYNC_SYNTHESIZE_MAX_LENGTH
            /\ s3_objects run.2 = s3_objects w)
  end.
Proof.
  intros run. subst run. run_effects. split_cases; world_fields.
  all: try reflexivity.
  all: try match goal with
         | H : _ && negb _ = true |- _ =>
             apply andb_true_iff in H as [?%Z.ltb_lt ?%negb_true_iff]
         end.
  all: try match goal with
         | H : (_ <? _) = true |- _ => apply Z.ltb_lt in H
         end.
  all: first [left; solve [eauto 10] | right; solve [eauto 10]].
Qed.

(** X8: a call with [async_processing = true], or with a text of
    [SYNTHESIZE_MAX_LENGTH] characters or more, never reaches the
    synchronous operation and never writes to the store, whatever the
    language, the voices and the answers of the service. *)
Theorem forced_asynchronous_never_synchronous
    (polly : polly_client)
    (bucket_name file_key text output_format language_code : string)
    (async_processing : bool) (w : world) :
  async_processing = true \/ SYNTHESIZE_MAX_LENGTH <= Py.len text ->
  let run := synthesize_speech polly bucket_name file_key text output_format
               language_code async_processing w in
  count is_synchronous (calls run.2) = count is_synchronous (calls w)
  /\ count is_write (calls run.2) = count is_write (calls w)
  /\ s3_objects run.2 = s3_objects w.
Proof.
  intros Hforced run. subst run.
  assert (Hmode : (Py.len text <? SYNTHESIZE_MAX_LENGTH)
                  && negb async_processing = false).
  { destruct Hforced as [->|Hlong]; [apply andb_false_r|].
    now rewrite (proj2 (Z.ltb_ge _ _) Hlong). }
  run_effects. rewrite Hmode. split_cases; world_fields.
  all: rewrite ?count_snoc; cbn; repeat split; lia.
Qed.

Lemma forced_asynchronous_never_synchronous_witness :
  let run := synthesize_speech Sample.speech "media" Sample.audio_key
               "a short text" "mp3" "en-US" true Sample.empty_world in
  (true = true \/ SYNTHESIZE_MAX_LENGTH <= Py.len "a short text")
  /\ count is_synchronous (calls run.2)
     = count is_synchronous (calls Sample.empty_world)
  /\ count is_write (calls run.2) = count is_write (calls Sample.empty_world)
  /\ s3_objects run.2 = s3_objects Sample.empty_world.
Proof.
  intros run. split; [left; reflexivity|].
  apply (forced_asynchronous_never_synchronous Sample.speech "media"
           Sample.audio_key "a short text" "mp3" "en-US" true
           Sample.empty_world).
  left. reflexivity.
Defined.

(** X9: when the service lists the language but has no voice for it (an
    empty list of voices, or no list at all), [synthesize_speech] raises the
    no-voice [ValueError] after the two lookups: no synthesis is attempted
    and the store is as it was. *)
Theorem no_voice_available
    (polly : polly_client)
    (bucket_name file_key text output_format language_code : string)
    (async_processing : bool) (voices : list voice) (w : world) :
  describe_voices polly None = Ok (Some voices) ->
  language_code ∈ LanguageCode <$> voices ->
  describe_voices polly (Some language_code) = Ok (Some [])
  \/ describe_voices polly (Some language_code) = Ok None ->
  synthesize_speech polly bucket_name file_key text output_format
    language_code async_processing w
  = (Raise (ValueError
       (String.append "No voices available for language: " language_code)),
     looked_up language_code w).
Proof.
  intros Hlist Hlang Hnone. run_effects. rewrite Hlist. cbv beta iota.
  rewrite bool_decide_eq_true_2 by (now apply elem_of_list_to_set).
  destruct Hnone as [Hnone|Hnone]; now rewrite Hnone.
Qed.

Lemma no_voice_available_witness :
  describe_voices Fixture.voiceless None = Ok (Some [Sample.joanna])
  /\ "en-US" ∈ LanguageCode <$> [Sample.joanna]
  /\ (describe_voices Fixture.voiceless (Some "en-US") = Ok (Some [])
      \/ describe_voices Fixture.voiceless (Some "en-US") = Ok None)
  /\ synthesize_speech Fixture.voiceless "media" Sample.audio_key "a text"
       "mp3" "en-US" false Sample.empty_world
     = (Raise (ValueError
          (String.append "No voices available for language: " "en-US")),
        looked_up "en-US" Sample.empty_world).
Proof.
  assert (Hlang : "en-US" ∈ LanguageCode <$> [Sample.joanna])
    by (apply list_elem_of_here).
  split; [reflexivity|]. split; [exact Hlang|].
  split; [left; reflexivity|].
  apply (no_voice_available Fixture.voiceless "media" Sample.audio_key "a text"
           "mp3" "en-US" false [Sample.joanna] Sample.empty_world eq_refl Hlang).
  left. reflexivity.
Defined.

(** *** Uploading the audio stream *)

Lemma accumulate_until_empty before rest full_data :
  Forall (fun chunk => chunk <> []) before ->
  match rest with [] => True | chunk :: _ => chunk = [] end ->
  accumulate (before ++ rest) full_data = full_data ++ concat before.
Proof.
  intros Hbefore Hrest. revert full_data.
  induction Hbefore as [|chunk before Hchunk _ IH]; intros full_data.
  - cbn [app concat]. rewrite app_nil_r.
    destruct rest as [|chunk rest]; [reflexivity|]. now subst chunk.
  - cbn [app accumulate concat].
    destruct chunk as [|b chunk]; [congruence|].
    now rewrite IH, <- app_assoc.
Qed.

(** X10: [process_audio_stream_and_upload_to_s3] reads the stream until
    the first empty chunk and, when the store is reachable, puts the chunks
    read so far, joined in order, at the key; when the store is unreachable
    it raises and stores nothing. *)
Theorem audio_stream_uploaded_whole
    (bucket file_key : string) (before rest : list (list byte)) (w : world) :
  Forall (fun chunk => chunk <> []) before ->
  match rest with [] => True | chunk :: _ => chunk = [] end ->
  let run := process_audio_stream_and_upload_to_s3 bucket file_key
               (before ++ rest) w in
  (reachable 1 (s3_faults w) = true ->
   run.1 = Ok tt
   /\ s3_objects run.2 = <[(bucket, file_key) := concat before]> (s3_objects w))
  /\ (reachable 1 (s3_faults w) = false ->
      run.1 = Raise EndpointConnectionError
      /\ s3_objects run.2 = s3_objects w).
Proof.
  intros Hbefore Hrest run. subst run.
  unfold process_audio_stream_and_upload_to_s3.
  rewrite (accumulate_until_empty before rest [] Hbefore Hrest).
  cbn [app]. split; intros Hup.
  - now rewrite (put_object_reachable _ _ _ _ Hup).
  - run_effects. destruct (s3_faults w) as [|[] faults]; try discriminate.
    now world_fields.
Qed.

Lemma audio_stream_uploaded_whole_witness :
  let run := process_audio_stream_and_upload_to_s3 "media" Sample.audio_key
               ([["073"; "068"]%byte; ["051"]%byte] ++ [[]; ["255"]%byte])
               Sample.empty_world in
  Forall (fun chunk : list byte => chunk <> [])
    [["073"; "068"]%byte; ["051"]%byte]
  /\ (reachable 1 (s3_faults Sample.empty_world) = true ->
      run.1 = Ok tt
      /\ s3_objects run.2
         = <[("media", Sample.audio_key)
               := concat [["073"; "068"]%byte; ["051"]%byte]]>
             (s3_objects Sample.empty_world))
  /\ (reachable 1 (s3_faults Sample.empty_world) = false ->
      run.1 = Raise EndpointConnectionError
      /\ s3_objects run.2 = s3_objects Sample.empty_world).
Proof.
  intros run.
  assert (Hchunks : Forall (fun chunk : list byte => chunk <> [])
                      [["073"; "068"]%byte; ["051"]%byte])
    by (repeat constructor; discriminate).
  split; [exact Hchunks|].
  exact (audio_stream_uploaded_whole "media" Sample.audio_key
           [["073"; "068"]%byte; ["051"]%byte] [[]; ["255"]%byte]
           Sample.empty_world Hchunks eq_refl).
Defined.

(** *** The existence check in front of the engine *)

Lemma reachable_weaken n faults :
  reachable (S n) faults = true -> reachable n faults = true.
Proof.
  revert faults. induction n as [|n IH]; intros faults; [reflexivity|].
  destruct faults as [|f faults]; [reflexivity|].
  cbn [reachable]. intros [Hf Hrest]%andb_true_iff.
  rewrite Hf. now apply IH.
Qed.

Lemma bind_ret_r {A} (m : M A) w : bind m (fun x => ret x) w = m w.
Proof. unfold bind, ret. now destruct (m w) as [[a|e] w']. Qed.

Lemma get_or_synthesize_speech_absent polly bucket_name file_key text
    output_format language_code async_processing w :
  s3_objects w !! (bucket_name, file_key) = None ->
  get_or_synthesize_speech polly bucket_name file_key text output_format
    language_code async_processing w
  = synthesize_speech polly bucket_name file_key text output_format
      language_code async_processing
      (requested (S3HeadObject bucket_name file_key) w).
Proof.
  intros Hobj. unfold get_or_synthesize_speech. rewrite try_reraise.
  rewrite (bind_ok _ _ _ _ _ (check_s3_file_exists_absent _ _ _ Hobj)).
  apply bind_ret_r.
Qed.

(** X11: when the store does not answer the existence check,
    [get_or_synthesize_speech] goes on as if the audio were missing: it runs
    [synthesize_speech], whether or not the audio key holds an object. *)
Theorem unreachable_check_synthesizes_again
    (polly : polly_client)
    (bucket_name file_key text output_format language_code : string)
    (async_processing : bool) (faults : list bool) (w : world) :
  s3_faults w = true :: faults ->
  get_or_synthesize_speech polly bucket_name file_key text output_format
    language_code async_processing w
  = synthesize_speech polly bucket_name file_key text output_format
      language_code async_processing
      (requested (S3HeadObject bucket_name file_key) w).
Proof.
  intros Hdown. unfold get_or_synthesize_speech. rewrite try_reraise.
  rewrite (bind_ok _ _ _ _ _
             (check_s3_file_exists_unreachable _ _ _ _ Hdown)).
  apply bind_ret_r.
Qed.

Lemma unreachable_check_synthesizes_again_witness :
  let w := {| s3_objects := s3_objects Sample.warm_world;
              s3_faults := [true]; calls := [] |} in
  s3_faults w = [true]
  /\ get_or_synthesize_speech Sample.speech "media" Sample.audio_key
       "a summary" "mp3" "en-US" false w
     = synthesize_speech Sample.speech "media" Sample.audio_key
         "a summary" "mp3" "en-US" false
         (requested (S3HeadObject "media" Sample.audio_key) w).
Proof.
  intros w. split; [reflexivity|].
  apply (unreachable_check_synthesizes_again Sample.speech "media"
           Sample.audio_key "a summary" "mp3" "en-US" false [] w).
  reflexivity.
Defined.

(** X12: audio synthesized on the synchronous path is found by the next
    call: after [get_or_synthesize_speech] has stored the audio, a second
    call with the same key, whatever its text and mode, returns
    [{'audio_key': file_key}] without any call to the speech service. *)
Theorem synchronous_audio_is_reused
    (polly : polly_client)
    (bucket_name file_key text output_format language_code : string)
    (voices : list voice) (default_voice : voice) (other_voices : list voice)
    (engine : string) (engines : list string) (audio : list (list byte))
    (w : world) :
  describe_voices polly None = Ok (Some voices) ->
  language_code ∈ LanguageCode <$> voices ->
  describe_voices polly (Some language_code)
    = Ok (Some (default_voice :: other_voices)) ->
  SupportedEngines default_voice = engine :: engines ->
  Py.len text < SYNTHESIZE_MAX_LENGTH ->
  polly_synthesize_speech polly
    (synchronous_request text output_format language_code default_voice engine)
    = Ok (Some audio) ->
  s3_objects w !! (bucket_name, file_key) = None ->
  reachable 3 (s3_faults w) = true ->
  let first := get_or_synthesize_speech polly bucket_name file_key text
                 output_format language_code false w in
  first.1 = Ok {[ "audio_key" := file_key ]}
  /\ forall (text' : string) (async_processing : bool),
       let second := get_or_synthesize_speech polly bucket_name file_key text'
                       output_format language_code async_processing first.2 in
       second.1 = Ok {[ "audio_key" := file_key ]}
       /\ count is_polly (calls second.2) = count is_polly (calls first.2).
Proof.
  intros Hlist Hlang Hvoice Hengine Hlen Hanswer Hobj Hup first.
  assert (Hfirst :
    first = (Ok {[ "audio_key" := file_key ]},
             stored bucket_name file_key (accumulate audio [])
               (requested (S3PutObject bucket_name file_key (accumulate audio []))
                  (logged (PollySynthesizeSpeech
                             (synchronous_request text output_format
                                language_code default_voice engine))
                     (looked_up language_code
                        (requested (S3HeadObject bucket_name file_key) w)))))).
  { subst first. rewrite (get_or_synthesize_speech_absent _ _ _ _ _ _ _ _ Hobj).
    apply (synthesize_speech_synchronous polly bucket_name file_key
             output_format language_code voices default_voice other_voices
             Hlist Hvoice Hlang text engine engines audio _ Hlen Hengine Hanswer).
    cbn [requested s3_faults]. now apply (reachable_tail 1), reachable_weaken. }
  rewrite Hfirst. cbn [fst snd]. split; [reflexivity|].
  intros text' async_processing.
  rewrite (check_then_synthesize_present polly bucket_name file_key text'
             output_format language_code async_processing (accumulate audio [])).
  - cbn [fst snd requested calls]. split; [reflexivity|].
    rewrite count_snoc. cbn. lia.
  - cbn [stored s3_objects]. apply lookup_insert_eq.
  - cbn [stored requested logged looked_up s3_faults].
    now apply (reachable_tail 1), (reachable_tail 2).
Qed.

Lemma synchronous_audio_is_reused_witness :
  let first := get_or_synthesize_speech Sample.speech "media" Sample.audio_key
                 "a summary" "mp3" "en-US" false Sample.empty_world in
  first.1 = Ok {[ "audio_key" := Sample.audio_key ]}
  /\ forall (text' : string) (async_processing : bool),
       let second := get_or_synthesize_speech Sample.speech "media"
                       Sample.audio_key text' "mp3" "en-US" async_processing
                       first.2 in
       second.1 = Ok {[ "audio_key" := Sample.audio_key ]}
       /\ count is_polly (calls second.2) = count is_polly (calls first.2).
Proof.
  apply (synchronous_audio_is_reused Sample.speech "media" Sample.audio_key
           "a summary" "mp3" "en-US" [Sample.joanna; Sample.lucia]
           Sample.joanna [] "neural" ["standard"]
           [["073"; "068"]%byte; ["051"]%byte] Sample.empty_world).
  - reflexivity.
  - apply list_elem_of_here.
  - reflexivity.
  - reflexivity.
  - reflexivity.
  - reflexivity.
  - apply lookup_empty.
  - reflexivity.
Defined.

(** X13: the asynchronous path leaves nothing at the audio key, so the
    existence check of a repeated call does not find the audio and the
    repeated call starts a second task for the same text. *)
Theorem asynchronous_repeat_starts_another_task
    (polly : polly_client)
    (bucket_name file_key text output_format language_code : string)
    (async_processing : bool)
    (voices : list voice) (default_voice : voice) (other_voices : list voice)
    (engine : string) (engines : list string) (w : world) :
  describe_voices polly None = Ok (Some voices) ->
  language_code ∈ LanguageCode <$> voices ->
  describe_voices polly (Some language_code)
    = Ok (Some (default_voice :: other_voices)) ->
  SupportedEngines default_voice = engine :: engines ->
  SYNTHESIZE_MAX_LENGTH <= Py.len text \/ async_processing = true ->
  Py.len text < ASYNC_SYNTHESIZE_MAX_LENGTH ->
  s3_objects w !! (bucket_name, file_key) = None ->
  let first := get_or_synthesize_speech polly bucket_name file_key text
                 output_format language_code async_processing w in
  let second := get_or_synthesize_speech polly bucket_name file_key text
                  output_format language_code async_processing first.2 in
  s3_objects first.2 !! (bucket_name, file_key) = None
  /\ count is_asynchronous (calls first.2) = S (count is_asynchronous (calls w))
  /\ count is_asynchronous (calls second.2)
     = S (S (count is_asynchronous (calls w)))
  /\ s3_objects second.2 !! (bucket_name, file_key) = None.
Proof.
  intros Hlist Hlang Hvoice Hengine Hmode Hlen Hobj first second.
  pose proof (synthesize_speech_asynchronous_path polly bucket_name file_key
                output_format language_code voices default_voice other_voices
                Hlist Hvoice Hlang text async_processing engine engines)
    as Hpath.
  assert (Hfirst : count is_asynchronous (calls first.2)
                   = S (count is_asynchronous (calls w))
                   /\ s3_objects first.2 = s3_objects w).
  { subst first. rewrite (get_or_synthesize_speech_absent _ _ _ _ _ _ _ _ Hobj).
    destruct (Hpath (requested (S3HeadObject bucket_name file_key) w)
                Hmode Hlen Hengine) as (Hasync & _ & Hstore).
    split; [|exact Hstore].
    rewrite Hasync. cbn [requested calls]. rewrite count_snoc. cbn. lia. }
  destruct Hfirst as [Hcount Hstore].
  assert (Hobj' : s3_objects first.2 !! (bucket_name, file_key) = None)
    by (now rewrite Hstore).
  split; [exact Hobj'|]. split; [exact Hcount|].
  subst second. rewrite (get_or_synthesize_speech_absent _ _ _ _ _ _ _ _ Hobj').
  destruct (Hpath (requested (S3HeadObject bucket_name file_key) first.2)
              Hmode Hlen Hengine) as (Hasync & _ & Hstore').
  split.
  - rewrite Hasync. cbn [requested calls]. rewrite count_snoc, Hcount. cbn. lia.
  - rewrite Hstore'. exact Hobj'.
Qed.

Lemma asynchronous_repeat_starts_another_task_witness :
  let first := get_or_synthesize_speech Sample.speech "media" Sample.audio_key
                 "a summary" "mp3" "en-US" true Sample.empty_world in
  let second := get_or_synthesize_speech Sample.speech "media" Sample.audio_key
                  "a summary" "mp3" "en-US" true first.2 in
  s3_objects first.2 !! ("media", Sample.audio_key) = None
  /\ count is_asynchronous (calls first.2)
     = S (count is_asynchronous (calls Sample.empty_world))
  /\ count is_asynchronous (calls second.2)
     = S (S (count is_asynchronous (calls Sample.empty_world)))
  /\ s3_objects second.2 !! ("media", Sample.audio_key) = None.
Proof.
  apply (asynchronous_repeat_starts_another_task Sample.speech "media"
           Sample.audio_key "a summary" "mp3" "en-US" true
           [Sample.joanna; Sample.lucia] Sample.joanna [] "neural" ["standard"]
           Sample.empty_world).
  - reflexivity.
  - apply list_elem_of_here.
  - reflexivity.
  - reflexivity.
  - right. reflexivity.
  - reflexivity.
  - apply lookup_empty.
Defined.

(** ** More on the response cache *)

(** X14: every run of [get_or_generate_bedrock_response] ends in one of
    three ways: it raises, and the store is as it was; it returns a value
    with the flag [True], and then the value is what the object at the key
    decodes to, no generation took place and the store is as it was; or it
    returns a value with the flag [False], and then the value is what the
    generation function answered, called once, and the store differs by the
    encoded value at the key alone. *)
Theorem get_or_generate_outcomes
    (pyobj : Type) (json_dumps : pyobj -> outcome (list byte))
    (json_loads : list byte -> outcome pyobj)
    (A : Type) (bucket key : string) (generate : A -> outcome pyobj) (args : A)
    (w : world) :
  let run := get_or_generate_bedrock_response pyobj json_dumps json_loads
               bucket key generate args w in
  match run.1 with
  | Raise _ => s3_objects run.2 = s3_objects w
  | Ok (v, true) =>
      s3_objects run.2 = s3_objects w
      /\ count is_generation (calls run.2) = count is_generation (calls w)
      /\ exists body,
           s3_objects w !! (bucket, key) = Some body /\ json_loads body = Ok v
  | Ok (v, false) =>
      generate args = Ok v
      /\ count is_generation (calls run.2) = S (count is_generation (calls w))
      /\ exists body,
           json_dumps v = Ok body
           /\ s3_objects run.2 = <[(bucket, key) := body]> (s3_objects w)
  end.
Proof.
  intros run. subst run. run_effects. split_cases.
  all: try reflexivity.
  all: rewrite ?count_snoc; cbn [is_generation].
  all: simplify_eq; repeat split; try lia; eauto.
Qed.

(** X15: what [write_json_to_s3] stores, [get_json_from_s3] reads back:
    for a codec that decodes the encoding of [v] to [v], and a reachable
    store, writing [v] at a key and reading the key returns [v]. *)
Theorem json_write_read_round_trip
    (pyobj : Type) (json_dumps : pyobj -> outcome (list byte))
    (json_loads : list byte -> outcome pyobj)
    (bucket key : string) (v : pyobj) (body : list byte) (w : world) :
  json_dumps v = Ok body ->
  json_loads body = Ok v ->
  reachable 3 (s3_faults w) = true ->
  (bind (write_json_to_s3 pyobj json_dumps bucket key v)
     (fun _ => get_json_from_s3 pyobj json_loads bucket key) w).1 = Ok v.
Proof.
  intros Hdump Hload Hup.
  rewrite (bind_ok _ _ _ _ _
             (write_json_to_s3_reachable pyobj json_dumps bucket key v body w
                Hdump (reachable_one _ _ Hup))).
  rewrite (get_json_from_s3_present pyobj json_loads bucket key body).
  - now rewrite Hload.
  - cbn [stored s3_objects]. apply lookup_insert_eq.
  - cbn [stored requested s3_faults]. now apply (reachable_tail 2).
Qed.

Lemma json_write_read_round_trip_witness :
  Sample.dumps "a summary" = Ok (list_byte_of_string "a summary")
  /\ Sample.loads (list_byte_of_string "a summary") = Ok "a summary"
  /\ reachable 3 (s3_faults Sample.empty_world) = true
  /\ (bind (write_json_to_s3 string Sample.dumps "media" Sample.summary_key
              "a summary")
        (fun _ => get_json_from_s3 string Sample.loads "media"
                    Sample.summary_key) Sample.empty_world).1
     = Ok "a summary".
Proof.
  repeat (split; [reflexivity|]).
  apply (json_write_read_round_trip string Sample.dumps Sample.loads "media"
           Sample.summary_key "a summary" (list_byte_of_string "a summary")
           Sample.empty_world); reflexivity.
Defined.

(** X16: a request repeated with the same key is answered from the store:
    after a miss that generated and stored [v], a second call returns [v]
    with the flag [True] and does not call its generation function, so that
    generation ran once for the two calls. *)
Theorem second_request_is_a_hit
    (pyobj : Type) (json_dumps : pyobj -> outcome (list byte))
    (json_loads : list byte -> outcome pyobj)
    (A B : Type) (bucket key : string)
    (generate : A -> outcome pyobj) (args : A)
    (generate' : B -> outcome pyobj) (args' : B)
    (v : pyobj) (body : list byte) (w : world) :
  s3_objects w !! (bucket, key) = None ->
  generate args = Ok v ->
  json_dumps v = Ok body ->
  json_loads body = Ok v ->
  reachable 5 (s3_faults w) = true ->
  let first := get_or_generate_bedrock_response pyobj json_dumps json_loads
                 bucket key generate args w in
  let second := get_or_generate_bedrock_response pyobj json_dumps json_loads
                  bucket key generate' args' first.2 in
  first.1 = Ok (v, false)
  /\ second.1 = Ok (v, true)
  /\ count is_generation (calls second.2) = S (count is_generation (calls w)).
Proof.
  intros Hobj Hgen Hdump Hload Hup first second. subst second first.
  rewrite (get_or_generate_miss _ _ _ _ _ _ _ _ _ _ Hobj Hgen Hdump)
    by (now apply reachable_weaken, reachable_weaken, reachable_weaken).
  cbn [fst snd]. split; [reflexivity|].
  rewrite (get_or_generate_hit pyobj json_dumps json_loads bucket key
             generate' args' body v).
  - cbn [fst snd stored requested logged calls]. split; [reflexivity|].
    rewrite !count_snoc. cbn. lia.
  - cbn [stored s3_objects]. apply lookup_insert_eq.
  - exact Hload.
  - cbn [stored requested logged s3_faults].
    now apply (reachable_tail 3), (reachable_tail 4).
Qed.

Lemma second_request_is_a_hit_witness :
  let first := get_or_generate_bedrock_response string Sample.dumps Sample.loads
                 "media" Sample.summary_key
                 (fun _ : unit => Ok "a summary") tt Sample.empty_world in
  let second := get_or_generate_bedrock_response string Sample.dumps
                  Sample.loads "media" Sample.summary_key
                  (fun _ : unit => Ok "another summary") tt first.2 in
  first.1 = Ok ("a summary", false)
  /\ second.1 = Ok ("a summary", true)
  /\ count is_generation (calls second.2)
     = S (count is_generation (calls Sample.empty_world)).
Proof.
  apply (second_request_is_a_hit string Sample.dumps Sample.loads unit unit
           "media" Sample.summary_key (fun _ => Ok "a summary") tt
           (fun _ => Ok "another summary") tt "a summary"
           (list_byte_of_string "a summary") Sample.empty_world).
  - apply lookup_empty.
  - reflexivity.
  - reflexivity.
  - reflexivity.
  - reflexivity.
Defined.

(** X17: a generated value that cannot be written is lost: on a miss
    where generation answers [v], if [v] does not serialise the call raises
    the serialisation error without any request to store it, and if the
    store is unreachable for the write the call raises the connection
    error; in both cases the store is as it was and the caller gets no
    value, although generation ran. *)
Theorem unwritable_value_is_lost
    (pyobj : Type) (json_dumps : pyobj -> outcome (list byte))
    (json_loads : list byte -> outcome pyobj)
    (A : Type) (bucket key : string) (generate : A -> outcome pyobj) (args : A)
    (v : pyobj) (w : world) :
  s3_objects w !! (bucket, key) = None ->
  generate args = Ok v ->
  let run := get_or_generate_bedrock_response pyobj json_dumps json_loads
               bucket key generate args w in
  (forall e, json_dumps v = Raise e ->
     run = (Raise e, logged Generate (requested (S3HeadObject bucket key) w)))
  /\ (forall body f faults,
        json_dumps v = Ok body ->
        s3_faults w = f :: true :: faults ->
        run.1 = Raise EndpointConnectionError
        /\ s3_objects run.2 = s3_objects w
        /\ count is_generation (calls run.2)
           = S (count is_generation (calls w))).
Proof.
  intros Hobj Hgen run. subst run.
  unfold get_or_generate_bedrock_response. rewrite try_reraise.
  rewrite (bind_ok _ _ _ _ _ (check_s3_file_exists_absent _ _ _ Hobj)).
  unfold call_generation, write_json_to_s3, put_object, s3_request, try_except,
    bind, emit, lift, ret, log_and_reraise, raise.
  rewrite Hgen. split.
  - intros e Hdump. now rewrite Hdump.
  - intros body f faults Hdump Hdown. rewrite Hdump. world_fields.
    rewrite Hdown. world_fields.
    rewrite !count_snoc. cbn. repeat split; lia.
Qed.

Lemma unwritable_value_is_lost_witness :
  let w := {| s3_objects := ∅; s3_faults := [false; true]; calls := [] |} in
  let run := get_or_generate_bedrock_response string Sample.dumps Sample.loads
               "media" Sample.summary_key
               (fun _ : unit => Ok "a summary") tt w in
  s3_objects w !! ("media", Sample.summary_key) = None
  /\ run.1 = Raise EndpointConnectionError
  /\ s3_objects run.2 = s3_objects w
  /\ count is_generation (calls run.2) = S (count is_generation (calls w)).
Proof.
  intros w run.
  assert (Hobj : s3_objects w !! ("media", Sample.summary_key) = None)
    by (apply lookup_empty).
  split; [exact Hobj|].
  destruct (unwritable_value_is_lost string Sample.dumps Sample.loads unit
              "media" Sample.summary_key (fun _ => Ok "a summary") tt
              "a summary" w Hobj eq_refl) as [_ Hput].
  exact (Hput (list_byte_of_string "a summary") false [] eq_refl eq_refl).
Defined.

(** *** The translation cache *)

Lemma get_or_generate_translation_as_generation
    (pyobj : Type) (json_dumps : pyobj -> outcome (list byte))
    (json_loads : list byte -> outcome pyobj)
    (bucket key : string)
    (translate : string -> string -> string -> outcome pyobj)
    (text source destination : string) (w : world) :
  get_or_generate_translation pyobj json_dumps json_loads bucket key translate
    text source destination w
  = get_or_generate_bedrock_response pyobj json_dumps json_loads bucket key
      (fun a : string * string * string => translate a.1.1 a.1.2 a.2)
      (text, source, destination) w.
Proof. reflexivity. Qed.

(** X18: [get_or_generate_translation] caches like
    [get_or_generate_bedrock_response]: a present key is answered from the
    store without calling the translation function; on an absent key the
    translation function is called once on the three arguments and its
    answer is stored and returned with the flag [False]; and when the
    translation function raises, the error reaches the caller and nothing is
    stored. *)
Theorem translation_is_cached
    (pyobj : Type) (json_dumps : pyobj -> outcome (list byte))
    (json_loads : list byte -> outcome pyobj)
    (bucket key : string)
    (translate : string -> string -> string -> outcome pyobj)
    (text source destination : string) (w : world) :
  let run := get_or_generate_translation pyobj json_dumps json_loads bucket key
               translate text source destination w in
  (forall body v,
      s3_objects w !! (bucket, key) = Some body ->
      json_loads body = Ok v ->
      reachable 3 (s3_faults w) = true ->
      run.1 = Ok (v, true)
      /\ count is_generation (calls run.2) = count is_generation (calls w))
  /\ (forall v body,
        s3_objects w !! (bucket, key) = None ->
        translate text source destination = Ok v ->
        json_dumps v = Ok body ->
        reachable 2 (s3_faults w) = true ->
        run.1 = Ok (v, false)
        /\ count is_generation (calls run.2)
           = S (count is_generation (calls w))
        /\ s3_objects run.2 = <[(bucket, key) := body]> (s3_objects w))
  /\ (forall e,
        s3_objects w !! (bucket, key) = None ->
        translate text source destination = Raise e ->
        run.1 = Raise e /\ s3_objects run.2 = s3_objects w).
Proof.
  intros run. subst run. rewrite get_or_generate_translation_as_generation.
  split; [|split].
  - intros body v Hobj Hload Hup.
    rewrite (get_or_generate_hit _ _ _ _ _ _ _ _ _ _ Hobj Hload Hup).
    cbn [fst snd requested calls]. split; [reflexivity|].
    rewrite !count_snoc. cbn. lia.
  - intros v body Hobj Htranslate Hdump Hup.
    rewrite (get_or_generate_miss pyobj json_dumps json_loads bucket key _
               (text, source, destination) v body w Hobj Htranslate Hdump Hup).
    cbn [fst snd stored requested logged calls s3_objects].
    repeat split. rewrite !count_snoc. cbn. lia.
  - intros e Hobj Htranslate.
    rewrite (get_or_generate_miss_raise pyobj json_dumps json_loads bucket key _
               (text, source, destination) e w Hobj Htranslate).
    now cbn.
Qed.

Lemma translation_is_cached_witness :
  let cold := get_or_generate_translation string Sample.dumps Sample.loads
                "media" Sample.summary_key
                (fun text _ _ => Ok (String.append "es: " text))
                "a summary" "en" "es" Sample.empty_world in
  let warm := get_or_generate_translation string Sample.dumps Sample.loads
                "media" Sample.summary_key
                (fun text _ _ => Ok (String.append "es: " text))
                "a summary" "en" "es" Sample.warm_world in
  (cold.1 = Ok ("es: a summary", false)
   /\ count is_generation (calls cold.2)
      = S (count is_generation (calls Sample.empty_world))
   /\ s3_objects cold.2
      = <[("media", Sample.summary_key) := list_byte_of_string "es: a summary"]>
          (s3_objects Sample.empty_world))
  /\ warm.1 = Ok ("a summary", true)
  /\ count is_generation (calls warm.2)
     = count is_generation (calls Sample.warm_world).
Proof.
  intros cold warm. split.
  - destruct (translation_is_cached string Sample.dumps Sample.loads "media"
                Sample.summary_key
                (fun text _ _ => Ok (String.append "es: " text))
                "a summary" "en" "es" Sample.empty_world) as (_ & Hmiss & _).
    apply (Hmiss "es: a summary" (list_byte_of_string "es: a summary"));
      [apply lookup_empty|reflexivity|reflexivity|reflexivity].
  - destruct (translation_is_cached string Sample.dumps Sample.loads "media"
                Sample.summary_key
                (fun text _ _ => Ok (String.append "es: " text))
                "a summary" "en" "es" Sample.warm_world) as (Hhit & _ & _).
    apply (Hhit (list_byte_of_string "a summary") "a summary");
      [apply lookup_insert_eq|reflexivity|reflexivity].
Defined.

(** ** Moving an object *)

Section Moving.

Variables source_bucket source_key destination_bucket destination_key : string.

Local Abbreviation move :=
  (move_s3_object source_bucket source_key destination_bucket destination_key).

Lemma s3_admin_request_reachable w :
  reachable 1 (s3_faults w) = true -> s3_admin_request w = (Ok tt, advanced w).
Proof.
  unfold s3_admin_request. destruct (s3_faults w) as [|[] faults]; cbn;
    [reflexivity|discriminate|reflexivity].
Qed.

Lemma copy_present body w :
  s3_objects w !! (source_bucket, source_key) = Some body ->
  reachable 2 (s3_faults w) = true ->
  copy source_bucket source_key destination_bucket destination_key w
  = (Ok tt,
     stored destination_bucket destination_key body
       (advanced (requested (S3HeadObject source_bucket source_key) w))).
Proof.
  intros Hobj Hup. unfold copy.
  rewrite (bind_ok _ _ _ _ _
             (head_object_present _ _ _ _ Hobj (reachable_one _ _ Hup))).
  rewrite (bind_ok _ _ _ tt
             (advanced (requested (S3HeadObject source_bucket source_key) w))).
  - unfold bind, read_object. world_fields. now rewrite Hobj.
  - apply s3_admin_request_reachable. world_fields.
    now apply (reachable_tail 1).
Qed.

Lemma delete_object_reachable bucket key w :
  reachable 1 (s3_faults w) = true ->
  delete_object bucket key w = (Ok tt, removed bucket key (advanced w)).
Proof.
  intros Hup. unfold delete_object.
  now rewrite (bind_ok _ _ _ _ _ (s3_admin_request_reachable _ Hup)).
Qed.

Lemma move_s3_object_present body w :
  s3_objects w !! (destination_bucket, destination_key) = Some body ->
  reachable 1 (s3_faults w) = true ->
  move w = (Ok tt, requested (S3HeadObject destination_bucket destination_key) w).
Proof.
  intros Hobj Hup. unfold move_s3_object.
  now rewrite (bind_ok _ _ _ _ _
                 (check_s3_file_exists_present _ _ _ _ Hobj Hup)).
Qed.

Lemma move_s3_object_moves body w :
  s3_objects w !! (destination_bucket, destination_key) = None ->
  s3_objects w !! (source_bucket, source_key) = Some body ->
  reachable 4 (s3_faults w) = true ->
  move w
  = (Ok tt,
     removed source_bucket source_key
       (advanced
          (stored destination_bucket destination_key body
             (advanced
                (requested (S3HeadObject source_bucket source_key)
                   (requested (S3HeadObject destination_bucket destination_key)
                      w)))))).
Proof.
  intros Hdest Hsrc Hup. unfold move_s3_object.
  rewrite (bind_ok _ _ _ _ _ (check_s3_file_exists_absent _ _ _ Hdest)).
  rewrite try_reraise.
  rewrite (bind_ok _ _ _ tt
             (stored destination_bucket destination_key body
                (advanced
                   (requested (S3HeadObject source_bucket source_key)
                      (requested
                         (S3HeadObject destination_bucket destination_key) w))))).
  - apply delete_object_reachable. world_fields.
    now apply (reachable_tail 1), (reachable_tail 2), (reachable_tail 3).
  - apply copy_present; [exact Hsrc|]. world_fields.
    now apply (reachable_tail 2), reachable_weaken.
Qed.

End Moving.

(** X19: when the destination is absent, the source holds an object and
    the store is reachable, [move_s3_object] succeeds: afterwards the
    destination holds the object, the source key is gone, and every other
    key is as it was. *)
Theorem move_s3_object_moves_the_object
    (source_bucket source_key destination_bucket destination_key : string)
    (body : list byte) (w : world) :
  s3_objects w !! (destination_bucket, destination_key) = None ->
  s3_objects w !! (source_bucket, source_key) = Some body ->
  reachable 4 (s3_faults w) = true ->
  let run := move_s3_object source_bucket source_key destination_bucket
               destination_key w in
  run.1 = Ok tt
  /\ s3_objects run.2 !! (destination_bucket, destination_key) = Some body
  /\ s3_objects run.2 !! (source_bucket, source_key) = None
  /\ forall other,
       other <> (source_bucket, source_key) ->
       other <> (destination_bucket, destination_key) ->
       s3_objects run.2 !! other = s3_objects w !! other.
Proof.
  intros Hdest Hsrc Hup run. subst run.
  rewrite (move_s3_object_moves _ _ _ _ body w Hdest Hsrc Hup).
  world_fields. split; [reflexivity|].
  assert (Hne : (source_bucket, source_key)
                <> (destination_bucket, destination_key)) by congruence.
  split; [|split].
  - rewrite lookup_delete_ne by exact Hne. apply lookup_insert_eq.
  - apply lookup_delete_eq.
  - intros other Hsource Hdestination.
    rewrite lookup_delete_ne by congruence.
    now rewrite lookup_insert_ne by congruence.
Qed.

Lemma move_s3_object_moves_the_object_witness :
  let run := move_s3_object "media" Fixture.temp_key "media" Fixture.final_key
               Fixture.transcribed_world in
  s3_objects Fixture.transcribed_world !! ("media", Fixture.final_key) = None
  /\ s3_objects Fixture.transcribed_world !! ("media", Fixture.temp_key)
     = Some (list_byte_of_string "a transcript")
  /\ reachable 4 (s3_faults Fixture.transcribed_world) = true
  /\ run.1 = Ok tt
  /\ s3_objects run.2 !! ("media", Fixture.final_key)
     = Some (list_byte_of_string "a transcript")
  /\ s3_objects run.2 !! ("media", Fixture.temp_key) = None
  /\ forall other,
       other <> ("media", Fixture.temp_key) ->
       other <> ("media", Fixture.final_key) ->
       s3_objects run.2 !! other = s3_objects Fixture.transcribed_world !! other.
Proof.
  intros run.
  assert (Hdest : s3_objects Fixture.transcribed_world
                    !! ("media", Fixture.final_key) = None)
    by (apply lookup_singleton_ne; discriminate).
  assert (Hsrc : s3_objects Fixture.transcribed_world
                   !! ("media", Fixture.temp_key)
                 = Some (list_byte_of_string "a transcript"))
    by (apply lookup_singleton_eq).
  split; [exact Hdest|]. split; [exact Hsrc|]. split; [reflexivity|].
  exact (move_s3_object_moves_the_object "media" Fixture.temp_key "media"
           Fixture.final_key (list_byte_of_string "a transcript")
           Fixture.transcribed_world Hdest Hsrc eq_refl).
Defined.

(** X20: [move_s3_object] can be repeated: once a move has succeeded, a
    second call with the same arguments finds the destination, returns
    without error although the source is gone, and leaves the store as it
    is. *)
Theorem move_s3_object_can_be_repeated
    (source_bucket source_key destination_bucket destination_key : string)
    (body : list byte) (w : world) :
  s3_objects w !! (destination_bucket, destination_key) = None ->
  s3_objects w !! (source_bucket, source_key) = Some body ->
  reachable 5 (s3_faults w) = true ->
  let first := move_s3_object source_bucket source_key destination_bucket
                 destination_key w in
  let second := move_s3_object source_bucket source_key destination_bucket
                  destination_key first.2 in
  first.1 = Ok tt
  /\ second.1 = Ok tt
  /\ s3_objects second.2 = s3_objects first.2.
Proof.
  intros Hdest Hsrc Hup first second. subst second first.
  assert (Hne : (source_bucket, source_key)
                <> (destination_bucket, destination_key)) by congruence.
  rewrite (move_s3_object_moves _ _ _ _ body w Hdest Hsrc)
    by (now apply reachable_weaken).
  cbn [fst snd]. split; [reflexivity|].
  rewrite (move_s3_object_present _ _ _ _ body).
  - now world_fields.
  - world_fields. rewrite lookup_delete_ne by exact Hne. apply lookup_insert_eq.
  - world_fields.
    now apply (reachable_tail 1), (reachable_tail 2), (reachable_tail 3),
      (reachable_tail 4).
Qed.

Lemma move_s3_object_can_be_repeated_witness :
  let first := move_s3_object "media" Fixture.temp_key "media" Fixture.final_key
                 Fixture.transcribed_world in
  let second := move_s3_object "media" Fixture.temp_key "media"
                  Fixture.final_key first.2 in
  first.1 = Ok tt /\ second.1 = Ok tt
  /\ s3_objects second.2 = s3_objects first.2.
Proof.
  apply (move_s3_object_can_be_repeated "media" Fixture.temp_key "media"
           Fixture.final_key (list_byte_of_string "a transcript")
           Fixture.transcribed_world).
  - apply lookup_singleton_ne; discriminate.
  - apply lookup_singleton_eq.
  - reflexivity.
Defined.

(** X21: [move_s3_object] between two different keys never loses the
    object: whatever the store answers and whether the call returns or
    raises, an object that was at the source before the call is, after it,
    still at the source or at the destination. *)
Theorem move_s3_object_keeps_the_object
    (source_bucket source_key destination_bucket destination_key : string)
    (body : list byte) (w : world) :
  (source_bucket, source_key) <> (destination_bucket, destination_key) ->
  s3_objects w !! (source_bucket, source_key) = Some body ->
  let run := move_s3_object source_bucket source_key destination_bucket
               destination_key w in
  s3_objects run.2 !! (source_bucket, source_key) = Some body
  \/ s3_objects run.2 !! (destination_bucket, destination_key) = Some body.
Proof.
  intros Hne Hsrc run. subst run. run_effects. split_cases.
  all: simplify_eq.
  all: first [left; assumption
             | right; apply lookup_insert_eq
             | right; rewrite lookup_delete_ne by exact Hne;
               apply lookup_insert_eq].
Qed.

Lemma move_s3_object_keeps_the_object_witness :
  let w := {| s3_objects := s3_objects Fixture.transcribed_world;
              s3_faults := [false; false; false; true]; calls := [] |} in
  let run := move_s3_object "media" Fixture.temp_key "media" Fixture.final_key
               w in
  s3_objects w !! ("media", Fixture.temp_key)
    = Some (list_byte_of_string "a transcript")
  /\ (s3_objects run.2 !! ("media", Fixture.temp_key)
        = Some (list_byte_of_string "a transcript")
      \/ s3_objects run.2 !! ("media", Fixture.final_key)
         = Some (list_byte_of_string "a transcript")).
Proof.
  intros w run.
  assert (Hsrc : s3_objects w !! ("media", Fixture.temp_key)
                 = Some (list_byte_of_string "a transcript"))
    by (apply lookup_singleton_eq).
  split; [exact Hsrc|].
  apply (move_s3_object_keeps_the_object "media" Fixture.temp_key "media"
           Fixture.final_key (list_byte_of_string "a transcript") w);
    [discriminate|exact Hsrc].
Defined.

(** X22: when neither the destination nor the source holds an object,
    [move_s3_object] raises and the store is as it was. *)
Theorem move_s3_object_without_source
    (source_bucket source_key destination_bucket destination_key : string)
    (w : world) :
  s3_objects w !! (destination_bucket, destination_key) = None ->
  s3_objects w !! (source_bucket, source_key) = None ->
  let run := move_s3_object source_bucket source_key destination_bucket
               destination_key w in
  (exists e, run.1 = Raise e) /\ s3_objects run.2 = s3_objects w.
Proof.
  intros Hdest Hsrc run. subst run. unfold move_s3_object.
  rewrite (bind_ok _ _ _ _ _ (check_s3_file_exists_absent _ _ _ Hdest)).
  rewrite try_reraise. unfold copy.
  destruct (head_object_absent source_bucket source_key
              (requested (S3HeadObject destination_bucket destination_key) w))
    as [e He]; [exact Hsrc|].
  rewrite (bind_raise _ _ _ e
             (requested (S3HeadObject source_bucket source_key)
                (requested (S3HeadObject destination_bucket destination_key) w))).
  - cbn. eauto.
  - now rewrite (bind_raise _ _ _ _ _ He).
Qed.

Lemma move_s3_object_without_source_witness :
  let run := move_s3_object "media" Fixture.temp_key "media" Fixture.final_key
               Sample.empty_world in
  (exists e, run.1 = Raise e)
  /\ s3_objects run.2 = s3_objects Sample.empty_world.
Proof.
  apply (move_s3_object_without_source "media" Fixture.temp_key "media"
           Fixture.final_key Sample.empty_world); apply lookup_empty.
Defined.

(** X23: a delete that fails is not made up for: when the copy succeeds
    and the store is unreachable for the delete, the call raises with the
    object at both keys, and the next call, finding the destination, returns
    without deleting the source. *)
Theorem move_s3_object_failed_delete_stays
    (source_bucket source_key destination_bucket destination_key : string)
    (body : list byte) (faults : list bool) (w : world) :
  s3_objects w !! (destination_bucket, destination_key) = None ->
  s3_objects w !! (source_bucket, source_key) = Some body ->
  s3_faults w = false :: false :: false :: true :: faults ->
  reachable 1 faults = true ->
  let first := move_s3_object source_bucket source_key destination_bucket
                 destination_key w in
  let second := move_s3_object source_bucket source_key destination_bucket
                  destination_key first.2 in
  first.1 = Raise EndpointConnectionError
  /\ s3_objects first.2 !! (destination_bucket, destination_key) = Some body
  /\ s3_objects first.2 !! (source_bucket, source_key) = Some body
  /\ second.1 = Ok tt
  /\ s3_objects second.2 !! (source_bucket, source_key) = Some body.
Proof.
  intros Hdest Hsrc Hfaults Hup first second.
  assert (Hne : (source_bucket, source_key)
                <> (destination_bucket, destination_key)) by congruence.
  assert (Hfirst :
    first = (Raise EndpointConnectionError,
             advanced
               (stored destination_bucket destination_key body
                  (advanced
                     (requested (S3HeadObject source_bucket source_key)
                        (requested
                           (S3HeadObject destination_bucket destination_key)
                           w)))))).
  { subst first. unfold move_s3_object.
    rewrite (bind_ok _ _ _ _ _ (check_s3_file_exists_absent _ _ _ Hdest)).
    rewrite try_reraise.
    rewrite (bind_ok _ _ _ tt
               (stored destination_bucket destination_key body
                  (advanced
                     (requested (S3HeadObject source_bucket source_key)
                        (requested
                           (S3HeadObject destination_bucket destination_key)
                           w))))).
    - unfold delete_object, bind, s3_admin_request. world_fields.
      now rewrite Hfaults.
    - apply copy_present; [exact Hsrc|]. world_fields. now rewrite Hfaults. }
  subst second. rewrite Hfirst. cbn [fst snd]. split; [reflexivity|].
  assert (Hthere : s3_objects
                     (advanced
                        (stored destination_bucket destination_key body
                           (advanced
                              (requested (S3HeadObject source_bucket source_key)
                                 (requested
                                    (S3HeadObject destination_bucket
                                       destination_key) w)))))
                     !! (destination_bucket, destination_key) = Some body)
    by (world_fields; apply lookup_insert_eq).
  split; [exact Hthere|]. split.
  - world_fields. now rewrite lookup_insert_ne by congruence.
  - rewrite (move_s3_object_present _ _ _ _ body _ Hthere).
    + world_fields. split; [reflexivity|].
      now rewrite lookup_insert_ne by congruence.
    + world_fields. rewrite Hfaults. exact Hup.
Qed.

Lemma move_s3_object_failed_delete_stays_witness :
  let w := {| s3_objects := s3_objects Fixture.transcribed_world;
              s3_faults := [false; false; false; true]; calls := [] |} in
  let first := move_s3_object "media" Fixture.temp_key "media" Fixture.final_key
                 w in
  let second := move_s3_object "media" Fixture.temp_key "media"
                  Fixture.final_key first.2 in
  first.1 = Raise EndpointConnectionError
  /\ s3_objects first.2 !! ("media", Fixture.final_key)
     = Some (list_byte_of_string "a transcript")
  /\ s3_objects first.2 !! ("media", Fixture.temp_key)
     = Some (list_byte_of_string "a transcript")
  /\ second.1 = Ok tt
  /\ s3_objects second.2 !! ("media", Fixture.temp_key)
     = Some (list_byte_of_string "a transcript").
Proof.
  intros w.
  apply (move_s3_object_failed_delete_stays "media" Fixture.temp_key "media"
           Fixture.final_key (list_byte_of_string "a transcript") [] w).
  - apply lookup_singleton_ne; discriminate.
  - apply lookup_singleton_eq.
  - reflexivity.
  - reflexivity.
Defined.

(** ** The identifier and the digest *)

Section Base64.
Import Py.

Lemma list_ind3 {A} (P : list A -> Prop) :
  P [] -> (forall a, P [a]) -> (forall a b, P [a; b]) ->
  (forall a b c l, P l -> P (a :: b :: c :: l)) ->
  forall l, P l.
Proof.
  intros H0 H1 H2 H3 l.
  assert (Hall : forall n l, (length l <= n)%nat -> P l).
  { induction n as [|n IH]; intros [|a [|b [|c l']]] Hlen; auto;
      cbn [length] in Hlen; try lia.
    apply H3, IH. lia. }
  now apply (Hall (length l)).
Qed.

Lemma urlsafe_alphabet_nodup : NoDup Codec.URLSAFE_ALPHABET.
Proof. apply (bool_decide_unpack _). vm_compute. exact I. Qed.

Lemma b64_digit_inj n m :
  (n < 64)%N -> (m < 64)%N -> Codec.b64_digit n = Codec.b64_digit m -> n = m.
Proof.
  intros Hn Hm Heq. unfold Codec.b64_digit in Heq.
  apply N2Nat.inj.
  eapply (proj1 (List.NoDup_nth Codec.URLSAFE_ALPHABET "="%byte));
    [apply NoDup_ListNoDup, urlsafe_alphabet_nodup| | |exact Heq];
    change (length Codec.URLSAFE_ALPHABET) with 64%nat; lia.
Qed.

Lemma byte_to_N_inj (a b : byte) : Byte.to_N a = Byte.to_N b -> a = b.
Proof.
  intros H. apply (f_equal Byte.of_N) in H.
  rewrite !Byte.of_to_N in H. now injection H.
Qed.

(** Name the quotient and the remainder of [v] by [d]. *)
Ltac divide v d :=
  let q := fresh "q" in
  let r := fresh "r" in
  pose proof (N.div_mod v d ltac:(discriminate));
  pose proof (N.mod_lt v d ltac:(discriminate));
  set (q := (v / d)%N) in *; set (r := (v mod d)%N) in *;
  clearbody q r.

(** From equal digits to equal indices. *)
Ltac digits_equal H := apply b64_digit_inj in H; [|lia|lia].

Lemma urlsafe_b64encode_inj bs :
  forall bs', length bs = length bs' ->
              Codec.urlsafe_b64encode bs = Codec.urlsafe_b64encode bs' ->
              bs = bs'.
Proof.
  induction bs as [|a|a b|a b c bs IH] using list_ind3;
    intros [|a' [|b' [|c' bs']]] Hlen; cbn [length] in Hlen;
    try (exfalso; lia).
  - reflexivity.
  - pose proof (byte_bound a). pose proof (byte_bound a').
    cbn [Codec.urlsafe_b64encode]. intros Henc. injection Henc as Hd1 Hd2.
    divide (Byte.to_N a) 4%N. divide (Byte.to_N a') 4%N.
    digits_equal Hd1. digits_equal Hd2.
    f_equal. apply byte_to_N_inj. lia.
  - pose proof (byte_bound a). pose proof (byte_bound a').
    pose proof (byte_bound b). pose proof (byte_bound b').
    cbn [Codec.urlsafe_b64encode]. intros Henc. injection Henc as Hd1 Hd2 Hd3.
    divide (Byte.to_N a) 4%N. divide (Byte.to_N a') 4%N.
    divide (Byte.to_N b) 16%N. divide (Byte.to_N b') 16%N.
    digits_equal Hd1. digits_equal Hd2. digits_equal Hd3.
    f_equal; [|f_equal]; apply byte_to_N_inj; lia.
  - pose proof (byte_bound a). pose proof (byte_bound a').
    pose proof (byte_bound b). pose proof (byte_bound b').
    pose proof (byte_bound c). pose proof (byte_bound c').
    cbn [Codec.urlsafe_b64encode]. intros Henc.
    injection Henc as Hd1 Hd2 Hd3 Hd4 Hrest.
    divide (Byte.to_N a) 4%N. divide (Byte.to_N a') 4%N.
    divide (Byte.to_N b) 16%N. divide (Byte.to_N b') 16%N.
    divide (Byte.to_N c) 64%N. divide (Byte.to_N c') 64%N.
    digits_equal Hd1. digits_equal Hd2. digits_equal Hd3. digits_equal Hd4.
    f_equal; [|f_equal; [|f_equal]]; try (apply byte_to_N_inj; lia).
    apply IH; [lia|exact Hrest].
Qed.

Lemma decode_inj bs bs' : Codec.decode bs = Codec.decode bs' -> bs = bs'.
Proof.
  revert bs'. induction bs as [|b bs IH]; intros [|b' bs']; try discriminate.
  - reflexivity.
  - cbn [Codec.decode]. intros H. injection H as Hb Hrest.
    f_equal; [|now apply IH].
    rewrite <- (byte_of_ascii_of_byte b), <- (byte_of_ascii_of_byte b').
    now rewrite Hb.
Qed.

Lemma urlsafe_b64encode_length bs :
  length (Codec.urlsafe_b64encode bs) = (4 * ((length bs + 2) / 3))%nat.
Proof.
  induction bs as [|a|a b|a b c bs IH] using list_ind3; try reflexivity.
  cbn [Codec.urlsafe_b64encode length]. rewrite IH.
  replace (S (S (S (length bs))) + 2)%nat with (length bs + 2 + 1 * 3)%nat by lia.
  rewrite Nat.div_add by lia. lia.
Qed.

Lemma decode_length bs : String.length (Codec.decode bs) = length bs.
Proof. induction bs as [|b bs IH]; [reflexivity|]. cbn. now rewrite IH. Qed.

Lemma padding_unique pad pad' :
  all (Ascii.eqb "=") pad = true -> all (Ascii.eqb "=") pad' = true ->
  String.length pad = String.length pad' -> pad = pad'.
Proof.
  revert pad'. induction pad as [|a pad IH]; intros [|a' pad'];
    try discriminate; [reflexivity|].
  cbn [all String.length].
  intros [Ha Hpad]%andb_true_iff [Ha' Hpad']%andb_true_iff Hlen.
  apply Ascii.eqb_eq in Ha, Ha'. subst a a'. f_equal.
  apply IH; [exact Hpad|exact Hpad'|lia].
Qed.

(** The identifier is the encoded digest without its padding. *)
Lemma deterministic_hash_unpadded sha256 file_key :
  exists pad,
    Codec.decode
      (Codec.urlsafe_b64encode (sha256 (Codec.encode (hashed_part file_key))))
    = String.append (deterministic_hash sha256 file_key) pad
    /\ all (Ascii.eqb "=") pad = true.
Proof.
  unfold deterministic_hash. fold (hashed_part file_key).
  destruct (urlsafe_b64encode_shape
              (sha256 (Codec.encode (hashed_part file_key))))
    as (body & pad & Hout & Hsafe & Hbody & Hpad).
  exists pad. split; [|exact Hpad].
  rewrite Hout at 2. unfold rstrip. rewrite (rstrip_by_append _ _ _ Hpad).
  rewrite rstrip_by_none
    by (eapply all_impl; [apply key_safe_not_padding|exact Hsafe]).
  rewrite keep_all
    by (eapply all_impl; [apply key_safe_allowed_chars|exact Hsafe]).
  exact Hout.
Qed.

End Base64.

(** X24: the identifier loses nothing of the digest: with a digest function
    of 32-byte digests, two references get the same identifier only if the
    digests of their hashed parts are equal. *)
Theorem deterministic_hash_determines_digest
    (sha256 : list byte -> list byte) (file_key file_key' : string) :
  (forall data, length (sha256 data) = 32%nat) ->
  deterministic_hash sha256 file_key = deterministic_hash sha256 file_key' ->
  sha256 (Codec.encode (hashed_part file_key))
    = sha256 (Codec.encode (hashed_part file_key')).
Proof.
  intros Hdigest Hsame.
  destruct (deterministic_hash_unpadded sha256 file_key)
    as (pad & Hout & Hpad).
  destruct (deterministic_hash_unpadded sha256 file_key')
    as (pad' & Hout' & Hpad').
  assert (Hlen : String.length pad = String.length pad').
  { apply (f_equal String.length) in Hout, Hout'.
    rewrite decode_length, urlsafe_b64encode_length, Hdigest, length_append
      in Hout, Hout'.
    rewrite Hsame in Hout. lia. }
  apply urlsafe_b64encode_inj; [now rewrite !Hdigest|].
  apply decode_inj. rewrite Hout, Hout', Hsame.
  f_equal. now apply padding_unique.
Qed.

Lemma deterministic_hash_determines_digest_witness :
  (forall data, length (Fixture.zero_digest data) = 32%nat)
  /\ deterministic_hash Fixture.zero_digest "videos/a.mp4"
     = deterministic_hash Fixture.zero_digest "videos/b.mp4"
  /\ Fixture.zero_digest (Codec.encode (hashed_part "videos/a.mp4"))
     = Fixture.zero_digest (Codec.encode (hashed_part "videos/b.mp4")).
Proof.
  assert (Hsame : deterministic_hash Fixture.zero_digest "videos/a.mp4"
                  = deterministic_hash Fixture.zero_digest "videos/b.mp4")
    by (unfold deterministic_hash, Fixture.zero_digest; reflexivity).
  split; [intros data; reflexivity|]. split; [exact Hsame|].
  apply (deterministic_hash_determines_digest Fixture.zero_digest
           "videos/a.mp4" "videos/b.mp4").
  - intros data. reflexivity.
  - exact Hsame.
Defined.

(** ** Language codes for the translation service *)

Lemma slice_to_short s i : Py.len s <= i -> Py.slice_to s i = s.
Proof.
  intros Hshort. unfold Py.slice_to, Py.slice_bound.
  pose proof (len_nonneg s). destruct (Z.ltb_spec i 0); [lia|].
  rewrite Z.min_r by lia. unfold Py.len. rewrite Nat2Z.id.
  rewrite <- (append_nil_r s) at 2. apply str_take_append.
Qed.

(** X25: [get_translate_language_code] returns a code of at most two
    characters and maps its own results to themselves, so that converting
    a code twice is the same as converting it once. *)
Theorem get_translate_language_code_idempotent (language_code : string) :
  Py.len (get_translate_language_code language_code) <= 2
  /\ get_translate_language_code (get_translate_language_code language_code)
     = get_translate_language_code language_code.
Proof.
  unfold get_translate_language_code.
  pose proof (len_slice_to_pos language_code 2 ltac:(lia)) as Hlen.
  destruct (String.eqb_spec (Py.slice_to language_code 2) "nb") as [Hnb|Hother].
  - split; reflexivity.
  - assert (Hshort : Py.len (Py.slice_to language_code 2) <= 2) by lia.
    split; [exact Hshort|].
    rewrite (slice_to_short _ 2 Hshort).
    now destruct (String.eqb_spec (Py.slice_to language_code 2) "nb").
Qed.
